(** * ZordBOT: a shallow embedding of the mint pipeline

    The development follows the Python sources file by file:
    - [Py]          the fragment of the Python runtime the sources rely on
                    (str, bytes, parsed JSON values, exceptions, effects);
    - [Inscription] core/inscription.py and the [json.dumps] call of the engine;
    - [RPC]         core/rpc.py;
    - [Wallet]      core/wallet.py;
    - [Engine]      core/mint_engine.py;
    - [Main]        the wallet selector of main.py.

    Python [float] is IEEE binary64 and is modelled by the kernel's primitive
    floats; Python [int] is [Z]; [str] is a list of code points; [bytes] is a
    list of [Byte.byte]. *)

From Stdlib Require Import List ZArith NArith String Ascii Bool Lia Arith.
From Stdlib Require Import DecimalString Permutation Floats.
Import ListNotations.

Set Implicit Arguments.

(* ===================================================================== *)
(** ** The Python runtime fragment *)
(* ===================================================================== *)

Module Py.

(** A [str] is a sequence of Unicode code points. *)
Definition str := list N.

(** [bytes]. *)
Definition bytes := list Byte.byte.

(** A source literal (ASCII only) as a [str]. *)
Definition lit (s : string) : str :=
  map N_of_ascii (list_ascii_of_string s).

(** The double quote, U+0022. *)
Definition dquote : N := 34%N.

Definition str_eqb (a b : str) : bool :=
  if list_eq_dec N.eq_dec a b then true else false.

(** The byte whose value is [n mod 256]. *)
Definition byte_of_N (n : N) : Byte.byte :=
  match Byte.of_N (n mod 256) with
  | Some b => b
  | None => Byte.x00
  end.

(** [str.encode()] on one code point: UTF-8, strict; surrogates and values
    beyond U+10FFFF have no encoding. *)
Definition encode_char (c : N) : option bytes :=
  if (c <? 128)%N then Some [byte_of_N c]
  else if (c <? 2048)%N then
    Some [byte_of_N (192 + N.shiftr c 6); byte_of_N (128 + N.land c 63)]
  else if (c <? 65536)%N then
    if ((55296 <=? c) && (c <=? 57343))%N then None
    else Some [byte_of_N (224 + N.shiftr c 12);
               byte_of_N (128 + N.land (N.shiftr c 6) 63);
               byte_of_N (128 + N.land c 63)]
  else if (c <? 1114112)%N then
    Some [byte_of_N (240 + N.shiftr c 18);
          byte_of_N (128 + N.land (N.shiftr c 12) 63);
          byte_of_N (128 + N.land (N.shiftr c 6) 63);
          byte_of_N (128 + N.land c 63)]
  else None.

(** [s.encode()]; [None] stands for [UnicodeEncodeError]. *)
Fixpoint encode (s : str) : option bytes :=
  match s with
  | [] => Some []
  | c :: r =>
      match encode_char c, encode r with
      | Some b, Some br => Some (b ++ br)
      | _, _ => None
      end
  end.

(** [str.lower()] on the ASCII letters.  The Unicode case tables are not
    reproduced: other code points are left as they are. *)
Definition lower_char (c : N) : N :=
  if ((65 <=? c) && (c <=? 90))%N then (c + 32)%N else c.

Definition lower (s : str) : str := map lower_char s.

(** Value of a hexadecimal digit. *)
Definition hexval (c : N) : option N :=
  if ((48 <=? c) && (c <=? 57))%N then Some (c - 48)%N
  else if ((97 <=? c) && (c <=? 102))%N then Some (c - 87)%N
  else if ((65 <=? c) && (c <=? 70))%N then Some (c - 55)%N
  else None.

(** ASCII white space as [bytes.fromhex] skips it. *)
Definition is_space (c : N) : bool :=
  ((c =? 32) || ((9 <=? c) && (c <=? 13)))%N.

(** [bytes.fromhex(s)]: pairs of hexadecimal digits, white space allowed
    between pairs; [None] stands for [ValueError]. *)
Fixpoint fromhex (s : str) : option bytes :=
  match s with
  | [] => Some []
  | c :: r =>
      if is_space c then fromhex r
      else
        match r with
        | [] => None
        | d :: r' =>
            match hexval c, hexval d, fromhex r' with
            | Some h, Some l, Some br => Some (byte_of_N (16 * h + l) :: br)
            | _, _, _ => None
            end
        end
  end.

(** [binascii.unhexlify] on the characters of a string: pairs of hexadecimal
    digits and nothing else; [None] stands for [binascii.Error]. *)
Fixpoint unhexlify (s : str) : option bytes :=
  match s with
  | [] => Some []
  | [_] => None
  | c :: d :: r =>
      match hexval c, hexval d, unhexlify r with
      | Some h, Some l, Some br => Some (byte_of_N (16 * h + l) :: br)
      | _, _, _ => None
      end
  end.

Definition byte_eqb (a b : Byte.byte) : bool := Byte.eqb a b.

(** [b.startswith(p)]. *)
Fixpoint startswith (p b : bytes) : bool :=
  match p, b with
  | [], _ => true
  | _ :: _, [] => false
  | x :: p', y :: b' => byte_eqb x y && startswith p' b'
  end.

(** [p in b] for two [bytes] objects: [p] occurs as a contiguous run. *)
Fixpoint contains (p b : bytes) : bool :=
  startswith p b ||
  match b with
  | [] => false
  | _ :: b' => contains p b'
  end.

(** [str(n)] for an [int]. *)
Definition str_of_int (n : Z) : str :=
  lit (NilZero.string_of_int (Z.to_int n)).

(** [float(n)] for an [int]: the nearest binary64 value, ties to even;
    [None] stands for [OverflowError]. *)
Definition float_of_int (n : Z) : option float :=
  let f := SF2Prim (binary_normalize prec emax n 0 false) in
  if PrimFloat.is_infinity f then None else Some f.

(** Values as [json.loads] (through [response.json()]) produces them.  A dict
    keeps its keys in insertion order. *)
#[warnings="-register-all"]
Inductive value : Type :=
| VNone
| VBool (b : bool)
| VInt (n : Z)
| VFloat (f : float)
| VStr (s : str)
| VList (l : list value)
| VDict (kv : list (str * value)).

(** Lookup in the items of a dict. *)
Fixpoint assoc (A : Type) (k : str) (kv : list (str * A)) : option A :=
  match kv with
  | [] => None
  | (k', v) :: r => if str_eqb k k' then Some v else assoc k r
  end.

(** [bool(v)]. *)
Definition truthy (v : value) : bool :=
  match v with
  | VNone => false
  | VBool b => b
  | VInt n => negb (n =? 0)%Z
  | VFloat f => negb (f =? 0)%float
  | VStr s => negb (Nat.eqb (List.length s) 0)
  | VList l => negb (Nat.eqb (List.length l) 0)
  | VDict kv => negb (Nat.eqb (List.length kv) 0)
  end.

(** [bool(f)] for a float. *)
Definition float_truthy (f : float) : bool := negb (f =? 0)%float.

(** The exceptions the sources raise or meet.  All are subclasses of
    [Exception]. *)
Inductive exn : Type :=
| RequestException                     (* requests: transport, status, body *)
| RPCError (err : value)               (* core/rpc.py *)
| RuntimeError (msg : str)
| ValueError
| TypeError
| KeyError (key : str)
| IndexError
| AttributeError (attr : str)
| OverflowError
| UnicodeEncodeError
| LibraryError.                        (* raised inside python-bitcoinlib *)

Inductive result (A : Type) : Type :=
| Ok (a : A)
| Raise (e : exn).

Arguments Ok {A} a.
Arguments Raise {A} e.

(** *** [json.dumps] *)

(** Lower-case hexadecimal digit of a value below 16. *)
Definition hex_digit (n : N) : N :=
  if (n <? 10)%N then (48 + n)%N else (87 + n)%N.

(** ['\\u{0:04x}'.format(n)] for [n] below [0x10000]. *)
Definition u_escape (n : N) : str :=
  lit "\u" ++ [hex_digit (N.shiftr n 12 mod 16); hex_digit (N.shiftr n 8 mod 16);
               hex_digit (N.shiftr n 4 mod 16); hex_digit (n mod 16)].

(** The replacement [json.encoder.py_encode_basestring_ascii] makes for one
    character ([ensure_ascii] is on by default): printable ASCII other than
    the quote and the backslash stays, the rest is escaped. *)
Definition escape_char (c : N) : str :=
  if (c =? 34)%N then [92; 34]%N
  else if (c =? 92)%N then [92; 92]%N
  else if (c =? 10)%N then lit "\n"
  else if (c =? 13)%N then lit "\r"
  else if (c =? 9)%N then lit "\t"
  else if (c =? 8)%N then lit "\b"
  else if (c =? 12)%N then lit "\f"
  else if ((32 <=? c) && (c <=? 126))%N then [c]
  else if (c <? 65536)%N then u_escape c
  else
    let n := (c - 65536)%N in
    u_escape (N.lor 55296 (N.land (N.shiftr n 10) 1023))
    ++ u_escape (N.lor 56320 (N.land n 1023)).

(** A string as a JSON string literal. *)
Definition encode_basestring_ascii (s : str) : str :=
  [dquote] ++ flat_map escape_char s ++ [dquote].

(** [sep.join(parts)]. *)
Fixpoint join (sep : str) (parts : list str) : str :=
  match parts with
  | [] => []
  | [p] => p
  | p :: r => p ++ sep ++ join sep r
  end.

(** [json.dumps(d, separators=(",", ":"))] for a dict [d] whose keys and
    values are strings. *)
Definition json_dumps_compact (d : list (str * str)) : str :=
  lit "{"
  ++ join (lit ",")
       (map (fun kv => encode_basestring_ascii (fst kv) ++ lit ":"
                       ++ encode_basestring_ascii (snd kv)) d)
  ++ lit "}".

End Py.

(* ===================================================================== *)
(** ** core/inscription.py *)
(* ===================================================================== *)

Module Inscription.
Import Py.

Definition magic : bytes := [Byte.x03] ++ list_byte_of_string "ord" ++ [Byte.x11].
Definition mime : bytes := list_byte_of_string "application/json".
Definition null : bytes := [Byte.x00].

(** [build_inscription_script(data_json)]; [None] stands for the
    [UnicodeEncodeError] of [data_json.encode()]. *)
Definition build_inscription_script (data_json : str) : option bytes :=
  match encode data_json with
  | Some body => Some (magic ++ mime ++ null ++ body)
  | None => None
  end.

(** The payload dict, in insertion order. *)
Definition mint_payload (tick : str) (amount : Z) : list (str * str) :=
  [ (lit "p", lit "zrc-20");
    (lit "op", lit "mint");
    (lit "tick", tick);
    (lit "amt", str_of_int amount) ].


End Inscription.

(* ===================================================================== *)
(** ** Effects: the outside world and the mutable state of the bot *)
(* ===================================================================== *)

Module Effects.
Import Py.

(** What an HTTP exchange ([requests.post] or [requests.get], then
    [raise_for_status()] and [json()]) comes to: an exception, or the decoded
    body. *)
Inductive Reply : Type :=
| Fail (e : exn)
| Body (v : value).

(** The parts of the run that the sources do not decide: the answers of the
    nodes and of the external APIs, and two library functions.
    - [http_post k url auth payload] answers the [k]-th POST of the run;
    - [http_get k url params] answers the [k]-th GET of the run;
    - [float_of_str s] is the builtin [float(s)] on a string, [None] for
      [ValueError];
    - [lib_outpoint txid vout] is python-bitcoinlib's [COutPoint(txid, vout)],
      giving the exception it raises, if any;
    - [lib_serialize txid vout script send_val dest] is the rest of the
      transaction construction by python-bitcoinlib and its serialization to
      hexadecimal. *)
Record Env : Type := {
  http_post : nat -> str -> option (value * value) -> value -> Reply;
  http_get : nat -> str -> list (str * str) -> Reply;
  float_of_str : str -> option float;
  lib_outpoint : bytes -> value -> option exn;
  lib_serialize : bytes -> value -> bytes -> float -> str -> result str
}.

Inductive Level : Type := DEBUG | INFO | WARNING | ERROR.

(** What a run leaves behind.  [ERequest i m ps] is recorded each time
    [RPCClient._perform_request] is entered, with the node index then current;
    [EGet] for each [requests.get]; [ELog] for each logger call, with its
    format string. *)
Inductive Event : Type :=
| ERequest (node : nat) (method : str) (params : list value)
| EGet (url : str) (params : list (str * str))
| ELog (level : Level) (fmt : string).

(** The mutable state: [RPCClient.index], the position of
    [MultiWallet._round_robin], how many POSTs and GETs were issued, and the
    events so far.  Wall-clock time is not part of the state: the rate
    limiters and the waits between attempts only delay. *)
Record World : Type := {
  rpc_index : nat;
  rr_pos : nat;
  posts : nat;
  gets : nat;
  trace : list Event
}.

(** Computations that read and change the world and may raise. *)
Definition M (A : Type) : Type := World -> result A * World.

Definition ret (A : Type) (a : A) : M A := fun w => (Ok a, w).

Definition raise (A : Type) (e : exn) : M A := fun w => (Raise e, w).

Arguments raise {A} e.

Definition bind (A B : Type) (m : M A) (k : A -> M B) : M B :=
  fun w =>
    match m w with
    | (Ok a, w') => k a w'
    | (Raise e, w') => (Raise e, w')
    end.

(** [try: m  except Exception as exc: h exc]. *)
Definition try_except (A : Type) (m : M A) (h : exn -> M A) : M A :=
  fun w =>
    match m w with
    | (Ok a, w') => (Ok a, w')
    | (Raise e, w') => h e w'
    end.

(** A pure step that may raise. *)
Definition lift (A : Type) (r : result A) : M A := fun w => (r, w).

Definition emit (e : Event) : M unit :=
  fun w => (Ok tt, {| rpc_index := rpc_index w; rr_pos := rr_pos w;
                      posts := posts w; gets := gets w;
                      trace := trace w ++ [e] |}).

(** A logger call. *)
Definition log (l : Level) (fmt : string) : M unit := emit (ELog l fmt).

(** [requests.post(url, json=payload, auth=auth, timeout=...)]. *)
Definition post (env : Env) (url : str) (auth : option (value * value))
    (payload : value) : M Reply :=
  fun w => (Ok (http_post env (posts w) url auth payload),
            {| rpc_index := rpc_index w; rr_pos := rr_pos w;
               posts := S (posts w); gets := gets w; trace := trace w |}).

(** [requests.get(url, params=params, timeout=5)]. *)
Definition get (env : Env) (url : str) (params : list (str * str)) : M Reply :=
  fun w => (Ok (http_get env (gets w) url params),
            {| rpc_index := rpc_index w; rr_pos := rr_pos w;
               posts := posts w; gets := S (gets w);
               trace := trace w ++ [EGet url params] |}).

Definition get_index : M nat := fun w => (Ok (rpc_index w), w).

Definition set_index (i : nat) : M unit :=
  fun w => (Ok tt, {| rpc_index := i; rr_pos := rr_pos w; posts := posts w;
                      gets := gets w; trace := trace w |}).

Definition get_rr : M nat := fun w => (Ok (rr_pos w), w).

Definition set_rr (i : nat) : M unit :=
  fun w => (Ok tt, {| rpc_index := rpc_index w; rr_pos := i; posts := posts w;
                      gets := gets w; trace := trace w |}).

(** [v[key]] for a string key. *)
Definition getitem (v : value) (key : str) : result value :=
  match v with
  | VDict kv =>
      match assoc key kv with
      | Some x => Ok x
      | None => Raise (KeyError key)
      end
  | _ => Raise TypeError
  end.

(** [v.get(key, default)]: only a dict has the method. *)
Definition get_or (v : value) (key : str) (default : value) : result value :=
  match v with
  | VDict kv =>
      match assoc key kv with
      | Some x => Ok x
      | None => Ok default
      end
  | _ => Raise (AttributeError (lit "get"))
  end.

(** [cfg.get(key)] on a configuration dict of strings. *)
Definition cfg_get (cfg : list (str * str)) (key : str) : option str :=
  assoc key cfg.

(** [bool(s)] for an optional string: [None] and the empty string are
    false. *)
Definition opt_truthy (s : option str) : bool :=
  match s with
  | Some (_ :: _) => true
  | _ => false
  end.

(** [float(v)]. *)
Definition py_float (env : Env) (v : value) : result float :=
  match v with
  | VBool b => Ok (if b then 1%float else 0%float)
  | VInt n =>
      match float_of_int n with
      | Some f => Ok f
      | None => Raise OverflowError
      end
  | VFloat f => Ok f
  | VStr s =>
      match float_of_str env s with
      | Some f => Ok f
      | None => Raise ValueError
      end
  | VNone | VList _ | VDict _ => Raise TypeError
  end.

(** [for x in v]: the items a loop over [v] sees. *)
Definition iterate (v : value) : result (list value) :=
  match v with
  | VList l => Ok l
  | VStr s => Ok (map (fun c => VStr [c]) s)
  | VDict kv => Ok (map (fun p => VStr (fst p)) kv)
  | _ => Raise TypeError
  end.

(** [l[:n]] on a list. *)
Definition slice_to (A : Type) (n : Z) (l : list A) : list A :=
  if (0 <=? n)%Z then firstn (Z.to_nat n) l
  else firstn (List.length l - Z.to_nat (- n)) l.

(** [v[:n]]: lists and strings can be sliced. *)
Definition slice_value (n : Z) (v : value) : result value :=
  match v with
  | VList l => Ok (VList (slice_to n l))
  | VStr s => Ok (VStr (slice_to n s))
  | _ => Raise TypeError
  end.

End Effects.

Declare Scope py_scope.
Delimit Scope py_scope with py.
Notation "'let*' x ':=' m 'in' k" := (Effects.bind m (fun x => k))
  (at level 10, x name, m at level 100, k at level 200) : py_scope.
Notation "m ';;' k" := (Effects.bind m (fun _ => k))
  (at level 100, k at level 200, right associativity) : py_scope.

(* ===================================================================== *)
(** ** core/rpc.py *)
(* ===================================================================== *)

Module RPCClient.
Import Py Effects.
Local Open Scope py_scope.

(** A node of the configuration: a dict of strings ([url], [user], [pass]). *)
Definition Node := list (str * str).

(** The immutable attributes of an [RPCClient]; [index] lives in the
    world. *)
Record t : Type := {
  nodes : list Node;
  retry_attempts : Z
}.

(** [RPCClient.__init__]: an empty node list is refused, the index starts at
    0, the attempt budget is at least 1. *)
Definition init (rpc_nodes : list Node) (attempts : Z) : M t :=
  match rpc_nodes with
  | [] => raise ValueError
  | _ :: _ =>
      set_index 0 ;;
      ret {| nodes := rpc_nodes; retry_attempts := Z.max 1 attempts |}
  end.

(** [_switch_node]. *)
Definition _switch_node (c : t) : M unit :=
  let* i := get_index in
  set_index ((i + 1) mod List.length (nodes c)) ;;
  log WARNING "Switching RPC to node %s".

(** [_current_node]: [self.nodes[self.index]]. *)
Definition _current_node (c : t) : M Node :=
  let* i := get_index in
  match nth_error (nodes c) i with
  | Some n => ret n
  | None => raise IndexError
  end.

(** [_respect_rate_limit]: waits, and changes nothing that is modelled. *)
Definition _respect_rate_limit (c : t) : M unit := ret tt.

Definition opt_value (s : option str) : value :=
  match s with
  | Some x => VStr x
  | None => VNone
  end.

(** [_perform_request]. *)
Definition _perform_request (env : Env) (c : t) (method : str)
    (params : list value) : M value :=
  let* i := get_index in
  emit (ERequest i method params) ;;
  let* node := _current_node c in
  let* url :=
    match assoc (lit "url") node with
    | Some u => ret u
    | None => raise (KeyError (lit "url"))
    end in
  let auth :=
    if opt_truthy (cfg_get node (lit "user"))
    then Some (opt_value (cfg_get node (lit "user")),
               opt_value (cfg_get node (lit "pass")))
    else None in
  let payload :=
    VDict [ (lit "jsonrpc", VStr (lit "1.0"));
            (lit "id", VStr (lit "bot"));
            (lit "method", VStr method);
            (lit "params", VList params) ] in
  _respect_rate_limit c ;;
  let* reply := post env url auth payload in
  match reply with
  | Fail e => raise e
  | Body result =>
      let* err := lift (get_or result (lit "error") VNone) in
      if truthy err then
        let* e := lift (getitem result (lit "error")) in
        raise (RPCError e)
      else lift (getitem result (lit "result"))
  end.

(** [retry_if_exception_type((requests.RequestException, RPCError))]. *)
Definition retryable (e : exn) : bool :=
  match e with
  | RequestException | RPCError _ => true
  | _ => false
  end.

(** The loop of [call]: an attempt, and after a failure the error log, the
    switch of node, and another attempt when the exception is one that is
    retried and the budget allows ([more] attempts are left after this one).
    A failure otherwise leaves the loop with the exception of the attempt
    ([reraise=True]). *)
Fixpoint call_loop (env : Env) (c : t) (method : str)
    (params : list value) (more : nat) : M value :=
  try_except (_perform_request env c method params)
    (fun exc =>
       log ERROR "RPC error on %s: %s" ;;
       _switch_node c ;;
       match more with
       | S more' =>
           if retryable exc then call_loop env c method params more'
           else raise exc
       | O => raise exc
       end).

(** [call]: [stop_after_attempt(self.retry_attempts)]. *)
Definition call (env : Env) (c : t) (method : str)
    (params : list value) : M value :=
  call_loop env c method params (Z.to_nat (retry_attempts c) - 1).

End RPCClient.

(* ===================================================================== *)
(** ** core/wallet.py *)
(* ===================================================================== *)

(** The [UTXO] dataclass.  [txid], [vout] and [address] hold what the node
    sent; only [amount] is converted. *)
Module UTXO.
Import Py.
Record t : Type := {
  txid : value;
  vout : value;
  amount : float;
  address : value
}.
End UTXO.

Module Wallet.
Import Py Effects.
Local Open Scope py_scope.

Record t : Type := {
  rpc : RPCClient.t;
  address : str;
  label : str
}.

(** [Wallet.__init__]: [label or address]. *)
Definition init (c : RPCClient.t) (addr : str) (lbl : option str) : t :=
  {| rpc := c; address := addr;
     label := match lbl with
              | Some (ch :: l) => ch :: l
              | _ => addr
              end |}.

(** A list comprehension whose element expression has effects. *)
Fixpoint map_M (A B : Type) (f : A -> M B) (l : list A) : M (list B) :=
  match l with
  | [] => ret []
  | x :: r =>
      let* y := f x in
      let* ys := map_M f r in
      ret (y :: ys)
  end.

(** [list_utxos]. *)
Definition list_utxos (env : Env) (w : t) (min_conf : Z) : M (list UTXO.t) :=
  let params := [VInt min_conf; VInt 9999999; VList [VStr (address w)]] in
  let* utxos := RPCClient.call env (rpc w) (lit "listunspent") params in
  let* items := lift (iterate utxos) in
  map_M (fun u =>
           let* t := lift (getitem u (lit "txid")) in
           let* v := lift (getitem u (lit "vout")) in
           let* a := lift (getitem u (lit "amount")) in
           let* f := lift (py_float env a) in
           let* ad := lift (get_or u (lit "address") (VStr (address w))) in
           ret {| UTXO.txid := t; UTXO.vout := v; UTXO.amount := f;
                  UTXO.address := ad |})
        items.

(** [max(l, key=key)] on floats: the first item that no later item
    exceeds; [None] on the empty list, where Python raises [ValueError]. *)
Definition max_by (A : Type) (key : A -> float) (l : list A) : option A :=
  match l with
  | [] => None
  | x :: r =>
      Some (fold_left (fun best y => if (key best <? key y)%float then y else best)
                      r x)
  end.

(** [select_largest_utxo]. *)
Definition select_largest_utxo (env : Env) (w : t) (min_conf : Z) : M UTXO.t :=
  let* utxos := list_utxos env w min_conf in
  match max_by UTXO.amount utxos with
  | None => raise (RuntimeError (lit "No spendable UTXOs for " ++ label w))
  | Some utxo =>
      log INFO "Selected UTXO %s:%s for %s" ;;
      ret utxo
  end.

(** [balance]: [sum] adds the amounts from the left, starting from 0. *)
Definition balance (env : Env) (w : t) (min_conf : Z) : M float :=
  let* utxos := list_utxos env w min_conf in
  ret (fold_left (fun acc u => (acc + UTXO.amount u)%float) utxos 0%float).

End Wallet.

Module MultiWallet.
Import Py Effects.
Local Open Scope py_scope.

(** [wallets]; the position of the [cycle] iterator lives in the world. *)
Record t : Type := {
  wallets : list Wallet.t
}.

(** [MultiWallet.__init__]. *)
Definition init (ws : list Wallet.t) : M t :=
  match ws with
  | [] => raise ValueError
  | _ :: _ => set_rr 0 ;; ret {| wallets := ws |}
  end.

(** [next_wallet]: [next(self._round_robin)]. *)
Definition next_wallet (m : t) : M Wallet.t :=
  let* i := get_rr in
  match nth_error (wallets m) (i mod List.length (wallets m)) with
  | Some w => set_rr ((i + 1) mod List.length (wallets m)) ;; ret w
  | None => raise IndexError
  end.

(** [richest_wallet]. *)
Definition richest_wallet (env : Env) (m : t) (min_conf : Z) : M Wallet.t :=
  let* balances :=
    Wallet.map_M (fun w => let* b := Wallet.balance env w min_conf in ret (w, b))
                 (wallets m) in
  match Wallet.max_by snd balances with
  | Some item => ret (fst item)
  | None => raise ValueError
  end.

(** [all]. *)
Definition all (m : t) : list Wallet.t := wallets m.

(** The attributes of a [MultiWallet] instance: the two set by [__init__]
    and the three methods of the class. *)
Inductive attr : Type :=
| a_wallets
| a__round_robin
| a_next_wallet
| a_richest_wallet
| a_all.

(** Attribute lookup by name, [None] when the instance has no such
    attribute. *)
Definition getattr (name : str) : option attr :=
  if str_eqb name (lit "wallets") then Some a_wallets
  else if str_eqb name (lit "_round_robin") then Some a__round_robin
  else if str_eqb name (lit "next_wallet") then Some a_next_wallet
  else if str_eqb name (lit "richest_wallet") then Some a_richest_wallet
  else if str_eqb name (lit "all") then Some a_all
  else None.

(** Calling an attribute with the one argument [min_conf]: only
    [richest_wallet] takes it. *)
Definition call_attr1 (env : Env) (m : t) (a : attr) (min_conf : Z) : M Wallet.t :=
  match a with
  | a_richest_wallet => richest_wallet env m min_conf
  | _ => raise TypeError
  end.

End MultiWallet.

(* ===================================================================== *)
(** ** core/mint_engine.py *)
(* ===================================================================== *)

Module FeeEstimator.
Import Py Effects.
Local Open Scope py_scope.

Record t : Type := {
  rpc : RPCClient.t;
  default_fee : float;
  dynamic : bool;
  tx_size_bytes : Z;
  external_fee_api : list (str * str)
}.

(** [_estimate_from_rpc], with [target_blocks] at its default 2. *)
Definition _estimate_from_rpc (env : Env) (fe : t) : M (option float) :=
  try_except
    (let* result := RPCClient.call env (rpc fe) (lit "estimatesmartfee") [VInt 2] in
     let feerate :=
       match result with
       | VDict kv =>
           match assoc (lit "feerate") kv with
           | Some v => v
           | None => VNone
           end
       | _ => VNone
       end in
     if truthy feerate then
       let* f := lift (py_float env feerate) in
       let* size := lift (py_float env (VInt (tx_size_bytes fe))) in
       ret (Some (f * (size / 1000))%float)
     else ret None)
    (fun exc => log WARNING "RPC fee estimation failed: %s" ;; ret None).

(** [_estimate_from_api]. *)
Definition _estimate_from_api (env : Env) (fe : t) : M (option float) :=
  match cfg_get (external_fee_api fe) (lit "url") with
  | Some (ch :: u) =>
      let url := ch :: u in
      try_except
        (let* reply := get env url [] in
         let* data :=
           match reply with
           | Fail e => raise e
           | Body v => ret v
           end in
         let field :=
           match cfg_get (external_fee_api fe) (lit "field") with
           | Some f => f
           | None => lit "fee"
           end in
         let* fee_value := lift (get_or data field VNone) in
         if truthy fee_value then
           let* f := lift (py_float env fee_value) in
           ret (Some f)
         else ret None)
        (fun exc => log WARNING "External fee API failed: %s" ;; ret None)
  | _ => ret None
  end.

(** [bool(fee)] for what a source returns. *)
Definition fee_truthy (fee : option float) : bool :=
  match fee with
  | Some f => float_truthy f
  | None => false
  end.

(** The loop of [estimate] over the sources that are left. *)
Fixpoint first_truthy (default : float) (sources : list (M (option float)))
    : M float :=
  match sources with
  | [] => ret default
  | source :: rest =>
      let* fee := source in
      match fee with
      | Some f =>
          if float_truthy f then
            log DEBUG "Selected fee %.8f from %s" ;; ret f
          else first_truthy default rest
      | None => first_truthy default rest
      end
  end.

(** [estimate]. *)
Definition estimate (env : Env) (fe : t) : M float :=
  if negb (dynamic fe) then ret (default_fee fe)
  else
    first_truthy (default_fee fe)
      [ _estimate_from_rpc env fe;
        _estimate_from_api env fe;
        ret (Some (default_fee fe)) ].

End FeeEstimator.

Module MempoolScanner.
Import Py Effects.
Local Open Scope py_scope.

Record t : Type := {
  rpc : RPCClient.t;
  max_scan : Z
}.

(** The test of the loop body on one raw transaction:
    [tick.lower().encode() in bytes.fromhex(raw.lower())]. *)
Definition tick_in_raw (tick : str) (raw : value) : result bool :=
  match encode (lower tick) with
  | None => Raise UnicodeEncodeError
  | Some needle =>
      match raw with
      | VStr r =>
          match fromhex (lower r) with
          | Some b => Ok (contains needle b)
          | None => Raise ValueError
          end
      | _ => Raise (AttributeError (lit "lower"))
      end
  end.

(** The loop of [contains_tick] over the ids that are left. *)
Fixpoint scan (env : Env) (ms : t) (tick : str) (txids : list value) : M bool :=
  match txids with
  | [] => ret false
  | txid :: rest =>
      let* hit :=
        try_except
          (let* raw := RPCClient.call env (rpc ms) (lit "getrawtransaction") [txid] in
           let* found := lift (tick_in_raw tick raw) in
           if found then
             log INFO "Tick %s already in mempool via %s" ;; ret true
           else ret false)
          (fun exc => ret false) in
      if hit then ret true else scan env ms tick rest
  end.

(** [contains_tick]. *)
Definition contains_tick (env : Env) (ms : t) (tick : str) : M bool :=
  let* txids :=
    try_except
      (let* v := RPCClient.call env (rpc ms) (lit "getrawmempool") [] in
       ret (Some v))
      (fun exc => log WARNING "Mempool scan failed: %s" ;; ret None) in
  match txids with
  | None => ret false
  | Some v =>
      let* head := lift (slice_value (max_scan ms) v) in
      let* items := lift (iterate head) in
      scan env ms tick items
  end.

End MempoolScanner.

Module ExternalTickerWatcher.
Import Py Effects.
Local Open Scope py_scope.

Record t : Type := {
  api_cfg : list (str * str)
}.

(** [is_tick_live]. *)
Definition is_tick_live (env : Env) (tw : t) (tick : str) : M bool :=
  match cfg_get (api_cfg tw) (lit "url") with
  | Some (ch :: u) =>
      let url := ch :: u in
      try_except
        (let* reply := get env url [(lit "tick", tick)] in
         let* data :=
           match reply with
           | Fail e => raise e
           | Body v => ret v
           end in
         let* live := lift (get_or data (lit "live") (VBool true)) in
         ret (truthy live))
        (fun exc => log WARNING "Ticker API unavailable: %s" ;; ret true)
  | _ => ret true
  end.

End ExternalTickerWatcher.

Module MintEngine.
Import Py Effects.
Local Open Scope py_scope.

Record t : Type := {
  rpc : RPCClient.t;
  rate_limit_seconds : option float;
  fee_estimator : FeeEstimator.t;
  attempts : Z;
  mempool_scanner : option MempoolScanner.t;
  ticker_watcher : option ExternalTickerWatcher.t
}.

(** [MintEngine.__init__]: the fee estimator keeps the default transaction
    size of 400 bytes; the retryer stops after [max(1, retry_attempts)]
    attempts and retries on every exception. *)
Definition init (c : RPCClient.t) (default_fee : float) (retry_attempts : Z)
    (fee_dynamic : bool) (rate_limit : option float)
    (external_fee_api : option (list (str * str)))
    (ms : option MempoolScanner.t) (tw : option ExternalTickerWatcher.t) : t :=
  {| rpc := c;
     rate_limit_seconds := rate_limit;
     fee_estimator :=
       {| FeeEstimator.rpc := c;
          FeeEstimator.default_fee := default_fee;
          FeeEstimator.dynamic := fee_dynamic;
          FeeEstimator.tx_size_bytes := 400;
          FeeEstimator.external_fee_api :=
            match external_fee_api with
            | Some cfg => cfg
            | None => []
            end |};
     attempts := Z.max 1 retry_attempts;
     mempool_scanner := ms;
     ticker_watcher := tw |}.

(** [_respect_rate_limit]: waits, and changes nothing that is modelled. *)
Definition _respect_rate_limit (eng : t) : M unit := ret tt.

(** [_should_proceed]. *)
Definition _should_proceed (env : Env) (eng : t) (tick : str) : M bool :=
  let* live :=
    match ticker_watcher eng with
    | Some tw => ExternalTickerWatcher.is_tick_live env tw tick
    | None => ret true
    end in
  if negb live then
    log DEBUG "Ticker %s not yet live per API" ;; ret false
  else
    let* pending :=
      match mempool_scanner eng with
      | Some ms => MempoolScanner.contains_tick env ms tick
      | None => ret false
      end in
    if pending then
      log INFO "Ticker %s already in mempool, skipping to avoid duplicates" ;;
      ret false
    else ret true.

(** [can_mint]. *)
Definition can_mint (env : Env) (eng : t) (tick : str) : M bool :=
  _should_proceed env eng tick.

(** python-bitcoinlib's [lx(h)]: [binascii.unhexlify(h.encode('utf8'))[::-1]]. *)
Definition lx (h : value) : result bytes :=
  match h with
  | VStr s =>
      match encode s with
      | None => Raise UnicodeEncodeError
      | Some b =>
          match unhexlify (map Byte.to_N b) with
          | Some r => Ok (rev r)
          | None => Raise ValueError
          end
      end
  | _ => Raise (AttributeError (lit "encode"))
  end.

Definition insufficient_funds : exn :=
  RuntimeError (lit "Selected UTXO does not cover fee").

Definition gated (tick : str) : exn :=
  RuntimeError (lit "Tick " ++ tick ++ lit " gated by watcher").

(** [_build_transaction], followed by the serialization of its result
    ([binascii.hexlify(tx.serialize()).decode()]). *)
Definition _build_transaction (env : Env) (utxo : UTXO.t) (dest_address : str)
    (inscription_json : str) (fee : float) : result str :=
  match lx (UTXO.txid utxo) with
  | Raise e => Raise e
  | Ok txid =>
      let vout := UTXO.vout utxo in
      let send_val := (UTXO.amount utxo - fee)%float in
      if (send_val <=? 0)%float then Raise insufficient_funds
      else
        match lib_outpoint env txid vout with
        | Some e => Raise e
        | None =>
            match Inscription.build_inscription_script inscription_json with
            | None => Raise UnicodeEncodeError
            | Some script =>
                lib_serialize env txid vout script send_val dest_address
            end
        end
  end.

(** The inner function [_execute] of [mint]. *)
Definition _execute (env : Env) (eng : t) (utxo : UTXO.t) (dest_address : str)
    (inscription_json : list (str * str)) (fee : float) : M value :=
  let* raw_hex :=
    lift (_build_transaction env utxo dest_address
            (json_dumps_compact inscription_json) fee) in
  let* signed :=
    RPCClient.call env (rpc eng) (lit "signrawtransaction") [VStr raw_hex] in
  let* final_hex := lift (get_or signed (lit "hex") (VStr raw_hex)) in
  let* txid_broadcast :=
    RPCClient.call env (rpc eng) (lit "sendrawtransaction") [final_hex] in
  log INFO "Broadcasted %s" ;;
  ret txid_broadcast.

(** The retry loop of [mint]: every exception of an attempt is logged and
    retried while the budget allows ([more] attempts are left after this
    one); the last one is raised again ([reraise=True]), so the two [raise]
    statements after the loop are never reached. *)
Fixpoint attempt_loop (env : Env) (eng : t) (utxo : UTXO.t) (dest_address : str)
    (inscription_json : list (str * str)) (fee : float) (more : nat) : M value :=
  try_except
    (_respect_rate_limit eng ;;
     _execute env eng utxo dest_address inscription_json fee)
    (fun exc =>
       log ERROR "Mint attempt failed: %s" ;;
       match more with
       | S more' => attempt_loop env eng utxo dest_address inscription_json fee more'
       | O => raise exc
       end).

(** [mint]. *)
Definition mint (env : Env) (eng : t) (utxo : UTXO.t) (tick : str) (amount : Z)
    (dest_address : str) : M value :=
  let inscription_json := Inscription.mint_payload tick amount in
  let* proceed := _should_proceed env eng tick in
  if negb proceed then raise (gated tick)
  else
    let* fee := FeeEstimator.estimate env (fee_estimator eng) in
    log INFO "Minting tick=%s amount=%s via UTXO %s:%s fee=%f" ;;
    attempt_loop env eng utxo dest_address inscription_json fee
      (Z.to_nat (attempts eng) - 1).

End MintEngine.

(* ===================================================================== *)
(** ** main.py: the wallet selector *)
(* ===================================================================== *)

Module WalletSelector.
Import Py Effects.
Local Open Scope py_scope.

Record t : Type := {
  wallets : list Wallet.t;
  strategy : str;
  multi : option MultiWallet.t
}.

(** [WalletSelector.__init__]: a [MultiWallet] only for more than one
    wallet. *)
Definition init (ws : list Wallet.t) (strat : str) : M t :=
  if (1 <? List.length ws)%nat then
    let* m := MultiWallet.init ws in
    ret {| wallets := ws; strategy := strat; multi := Some m |}
  else ret {| wallets := ws; strategy := strat; multi := None |}.

(** [pick].  The strategy "richest" calls [self.multi.richest(min_conf)]:
    the attribute is looked up by that name on the [MultiWallet]. *)
Definition pick (env : Env) (sel : t) (min_conf : Z) : M Wallet.t :=
  match multi sel with
  | None =>
      match wallets sel with
      | w :: _ => ret w
      | [] => raise IndexError
      end
  | Some m =>
      if str_eqb (strategy sel) (lit "richest") then
        match MultiWallet.getattr (lit "richest") with
        | Some a => MultiWallet.call_attr1 env m a min_conf
        | None => raise (AttributeError (lit "richest"))
        end
      else MultiWallet.next_wallet m
  end.

End WalletSelector.

(* ===================================================================== *)
(** ** What a run leaves in the trace *)
(* ===================================================================== *)

Module Trace.
Import Py Effects.

(** The node indices of the request attempts of a trace, in order. *)
Definition visited (tr : list Event) : list nat :=
  flat_map (fun e => match e with ERequest i _ _ => [i] | _ => [] end) tr.

(** The request attempts of a trace for one RPC method. *)
Definition requests_of (method : str) (tr : list Event) : nat :=
  List.length
    (filter (fun e => match e with
                      | ERequest _ m _ => str_eqb m method
                      | _ => false
                      end) tr).

(** The failed mint attempts a trace records. *)
Definition failed_mint_attempts (tr : list Event) : nat :=
  List.length
    (filter (fun e => match e with
                      | ELog ERROR fmt => String.eqb fmt "Mint attempt failed: %s"
                      | _ => false
                      end) tr).

(** The failed attempts of a call that made [k] attempts and ended in [r]:
    all of them, or all but the last. *)
Definition failures_of (A : Type) (r : result A) (k : nat) : nat :=
  match r with
  | Ok _ => k - 1
  | Raise _ => k
  end.

(** A run of calls on one client, one after the other, the exception of a
    call caught by its caller; the results of the calls, in order. *)
Fixpoint call_each (env : Env) (c : RPCClient.t)
    (reqs : list (str * list value)) : M (list (result value)) :=
  match reqs with
  | [] => ret []
  | req :: rest =>
      let* r :=
        try_except
          (let* v := RPCClient.call env c (fst req) (snd req) in ret (Ok v))
          (fun exc => ret (Raise exc)) in
      let* rs := call_each env c rest in
      ret (r :: rs)
  end%py.


(** The world with more events. *)
Definition with_events (w : World) (evs : list Event) : World :=
  {| rpc_index := rpc_index w; rr_pos := rr_pos w; posts := posts w;
     gets := gets w; trace := trace w ++ evs |}.

(** The debug line of [estimate] when a source is selected. *)
Definition selected : Event := ELog DEBUG "Selected fee %.8f from %s".

(** The lines [mint] logs. *)
Definition minting : Event :=
  ELog INFO "Minting tick=%s amount=%s via UTXO %s:%s fee=%f".
Definition attempt_failed : Event := ELog ERROR "Mint attempt failed: %s".
Definition broadcasted : Event := ELog INFO "Broadcasted %s".
Definition not_live : Event := ELog DEBUG "Ticker %s not yet live per API".

(** A computation that issues no request attempt for [method]. *)
Definition silent (method : str) (A : Type) (m : M A) : Prop :=
  forall w,
    requests_of method (trace (snd (m w))) = requests_of method (trace w).

(** The world after one more GET. *)
Definition after_get (w : World) (url : str) (params : list (str * str)) : World :=
  {| rpc_index := rpc_index w; rr_pos := rr_pos w; posts := posts w;
     gets := S (gets w); trace := trace w ++ [EGet url params] |}.

End Trace.

(* ===================================================================== *)
(** ** Concrete worlds for the examples *)
(* ===================================================================== *)

Module Fixtures.
Import Py Effects.

(** The world at start-up. *)
Definition w0 : World :=
  {| rpc_index := 0; rr_pos := 0; posts := 0; gets := 0; trace := [] |}.

(** The method of a JSON-RPC request body. *)
Definition method_of (payload : value) : str :=
  match payload with
  | VDict kv =>
      match assoc (lit "method") kv with
      | Some (VStr m) => m
      | _ => []
      end
  | _ => []
  end.

(** A JSON-RPC response carrying a result. *)
Definition rpc_ok (v : value) : Reply :=
  Body (VDict [(lit "result", v); (lit "error", VNone); (lit "id", VStr (lit "bot"))]).

(** An environment whose nodes answer by method and whose external APIs
    answer by url; the transaction library accepts everything and
    serializes to a fixed string. *)
Definition scripted (node : str -> Reply) (api : str -> Reply) : Env :=
  {| http_post := fun _ _ _ payload => node (method_of payload);
     http_get := fun _ url _ => api url;
     float_of_str := fun _ => None;
     lib_outpoint := fun _ _ => None;
     lib_serialize := fun _ _ _ _ _ => Ok (lit "0100") |}.

Definition node_a : RPCClient.Node := [(lit "url", lit "http://a:8232")].
Definition node_b : RPCClient.Node :=
  [(lit "url", lit "http://b:8232"); (lit "user", lit "u"); (lit "pass", lit "p")].
Definition node_c : RPCClient.Node := [(lit "url", lit "http://c:8232")].

Definition client3 : RPCClient.t :=
  {| RPCClient.nodes := [node_a; node_b; node_c]; RPCClient.retry_attempts := 3 |}.

(** The same three nodes, one attempt per call. *)
Definition client3_once : RPCClient.t :=
  {| RPCClient.nodes := [node_a; node_b; node_c]; RPCClient.retry_attempts := 1 |}.

Definition client1 : RPCClient.t :=
  {| RPCClient.nodes := [node_a]; RPCClient.retry_attempts := 3 |}.

(** Every node is down. *)
Definition env_down : Env :=
  scripted (fun _ => Fail RequestException) (fun _ => Fail RequestException).

Definition txid0 : str :=
  lit "00112233445566778899aabbccddeeff00112233445566778899aabbccddeeff".

Definition dest0 : str := lit "t1destination".

Definition utxo_of (amt : float) : UTXO.t :=
  {| UTXO.txid := VStr txid0; UTXO.vout := VInt 0; UTXO.amount := amt;
     UTXO.address := VStr dest0 |}.

(** An engine with a fixed fee and no gating. *)
Definition engine_fixed (fee : float) (retry : Z) : MintEngine.t :=
  MintEngine.init client3 fee retry false None None None None.

(** A node whose [estimatesmartfee] answers [{"feerate": v}]; every other
    method, and every external API, fails. *)
Definition env_feerate (v : value) : Env :=
  scripted
    (fun m => if str_eqb m (lit "estimatesmartfee")
              then rpc_ok (VDict [(lit "feerate", v)])
              else Fail RequestException)
    (fun _ => Fail RequestException).

(** Nodes that are down, and an external fee API that answers
    [{"fee": v}]. *)
Definition env_api_fee (v : value) : Env :=
  scripted (fun _ => Fail RequestException)
           (fun _ => Body (VDict [(lit "fee", v)])).

Definition fee_api_cfg : list (str * str) := [(lit "url", lit "http://fees/api")].

(** A dynamic estimator on one node, with the external API configured. *)
Definition estimator (default : float) : FeeEstimator.t :=
  {| FeeEstimator.rpc := client1;
     FeeEstimator.default_fee := default;
     FeeEstimator.dynamic := true;
     FeeEstimator.tx_size_bytes := 400;
     FeeEstimator.external_fee_api := fee_api_cfg |}.

Definition ticker_cfg : list (str * str) := [(lit "url", lit "http://ticker/api")].

(** A ticker API that answers [{"live": false}]; the nodes are down. *)
Definition env_not_live : Env :=
  scripted (fun _ => Fail RequestException)
           (fun _ => Body (VDict [(lit "live", VBool false)])).

(** An engine with a fixed fee of 0.5, three attempts, and a ticker
    watcher. *)
Definition engine_watched : MintEngine.t :=
  MintEngine.init client3 0.5 3 false None None None
    (Some {| ExternalTickerWatcher.api_cfg := ticker_cfg |}).

(** Nodes whose [signrawtransaction] answers an object without [hex], and
    whose [sendrawtransaction] answers a transaction id. *)
Definition env_sign_nohex : Env :=
  scripted
    (fun m => if str_eqb m (lit "signrawtransaction")
              then rpc_ok (VDict [(lit "complete", VBool false)])
              else if str_eqb m (lit "sendrawtransaction")
              then rpc_ok (VStr (lit "beef"))
              else Fail RequestException)
    (fun _ => Fail RequestException).

(** The parameters of a JSON-RPC request body. *)
Definition params_of (payload : value) : list value :=
  match payload with
  | VDict kv =>
      match assoc (lit "params") kv with
      | Some (VList ps) => ps
      | _ => []
      end
  | _ => []
  end.

(** A mempool of one transaction whose raw hex is [raw]. *)
Definition env_mempool (raw : str) : Env :=
  scripted
    (fun m => if str_eqb m (lit "getrawmempool")
              then rpc_ok (VList [VStr txid0])
              else if str_eqb m (lit "getrawtransaction")
              then rpc_ok (VStr raw)
              else Fail RequestException)
    (fun _ => Fail RequestException).

Definition scanner : MempoolScanner.t :=
  {| MempoolScanner.rpc := client1; MempoolScanner.max_scan := 100 |}.

Definition wallet_a : Wallet.t := Wallet.init client1 (lit "t1aaa") None.
Definition wallet_b : Wallet.t := Wallet.init client1 (lit "t1bbb") (Some (lit "B")).

(** A node that reports one output of 1.0 for the address of [wallet_a] and
    one of 2.0 for any other address. *)
Definition env_balances : Env :=
  {| http_post := fun _ _ _ payload =>
       match params_of payload with
       | [_; _; VList [VStr addr]] =>
           rpc_ok (VList [VDict [(lit "txid", VStr txid0); (lit "vout", VInt 0);
                                 (lit "amount",
                                  VFloat (if str_eqb addr (lit "t1aaa")
                                          then 1 else 2)%float)]])
       | _ => Fail RequestException
       end;
     http_get := fun _ _ _ => Fail RequestException;
     float_of_str := fun _ => None;
     lib_outpoint := fun _ _ => None;
     lib_serialize := fun _ _ _ _ _ => Ok (lit "0100") |}.

(** The selector [WalletSelector([wallet_a, wallet_b], "richest")]. *)
Definition selector_richest : WalletSelector.t :=
  {| WalletSelector.wallets := [wallet_a; wallet_b];
     WalletSelector.strategy := lit "richest";
     WalletSelector.multi :=
       Some {| MultiWallet.wallets := [wallet_a; wallet_b] |} |}.

End Fixtures.

(* ===================================================================== *)
(** ** main.py: the mint cycle *)
(* ===================================================================== *)

(** The [MintTarget] dataclass of core/mint_engine.py. *)
Module MintTarget.
Import Py.
Record t : Type := {
  tick : str;
  amount : Z;
  batch : Z
}.
End MintTarget.

Module Main.
Import Py Effects.
Local Open Scope py_scope.

(** The body of the inner loop of [run_mint_cycle]: the pick is outside
    every [try]; a failed UTXO selection is logged and the round ends
    ([continue]); a failed mint is logged. *)
Definition mint_once (env : Env) (engine : MintEngine.t) (selector : WalletSelector.t)
    (target : MintTarget.t) (min_conf : Z) : M unit :=
  let* wallet := WalletSelector.pick env selector min_conf in
  let* utxo :=
    try_except
      (let* u := Wallet.select_largest_utxo env wallet min_conf in ret (Some u))
      (fun exc => log ERROR "UTXO selection failed for %s: %s" ;; ret None) in
  match utxo with
  | None => ret tt
  | Some u =>
      try_except
        (MintEngine.mint env engine u (MintTarget.tick target)
           (MintTarget.amount target) (Wallet.address wallet) ;;
         ret tt)
        (fun exc => log ERROR "Mint failed (wallet=%s tick=%s): %s")
  end.

(** [for _ in range(n): body]. *)
Fixpoint times (n : nat) (body : M unit) : M unit :=
  match n with
  | O => ret tt
  | S k => body ;; times k body
  end.

(** [run_mint_cycle]; [range(batch)] is empty for a batch of zero or
    less. *)
Fixpoint run_mint_cycle (env : Env) (engine : MintEngine.t)
    (selector : WalletSelector.t) (targets : list MintTarget.t) (min_conf : Z)
    : M unit :=
  match targets with
  | [] => ret tt
  | target :: rest =>
      times (Z.to_nat (MintTarget.batch target))
            (mint_once env engine selector target min_conf) ;;
      run_mint_cycle env engine selector rest min_conf
  end.

End Main.

(* ===================================================================== *)
(** ** core/config.py *)
(* ===================================================================== *)

Module Config.
Import Py.

(** [d[key] = v] on the items of a dict: an existing key keeps its place, a
    new key goes last. *)
Fixpoint dict_set (key : str) (v : value) (d : list (str * value))
    : list (str * value) :=
  match d with
  | [] => [(key, v)]
  | (k, x) :: r =>
      if str_eqb key k then (k, v) :: r else (k, x) :: dict_set key v r
  end.

(** [_deep_merge] on two dicts given as values.  The recursion is on the
    override, whose nested dicts are values; the inner loop is the [for] over
    [override.items()], with [result] as its state. *)
Fixpoint merge_value (base override : value) {struct override} : value :=
  match base, override with
  | VDict b, VDict o =>
      VDict
        ((fix loop (items result : list (str * value)) {struct items}
            : list (str * value) :=
            match items with
            | [] => result
            | (key, v) :: rest =>
                loop rest
                  match assoc key result, v with
                  | Some (VDict sub), VDict _ =>
                      dict_set key (merge_value (VDict sub) v) result
                  | _, _ => dict_set key v result
                  end
            end) o b)
  | _, _ => override
  end.

(** [_deep_merge(base, override)] on the items of the two dicts. *)
Definition _deep_merge (base override : list (str * value))
    : list (str * value) :=
  match merge_value (VDict base) (VDict override) with
  | VDict r => r
  | _ => []
  end.

(** One round of the loop of [_deep_merge]. *)
Definition merge_item (result : list (str * value)) (key : str) (v : value)
    : list (str * value) :=
  match assoc key result, v with
  | Some (VDict sub), VDict o => dict_set key (VDict (_deep_merge sub o)) result
  | _, _ => dict_set key v result
  end.

End Config.

(* ===================================================================== *)
(** ** More observations *)
(* ===================================================================== *)

Module Obs.
Import Py Effects.
Local Open Scope py_scope.

(** The events of a trace that satisfy [P]. *)
Definition count (P : Event -> bool) (tr : list Event) : nat :=
  List.length (filter P tr).


(** A request attempt for [method]. *)
Definition is_request (method : str) (e : Event) : bool :=
  match e with
  | ERequest _ m _ => str_eqb m method
  | _ => false
  end.


(** [k] picks in a row, and the wallets they return. *)
Fixpoint picks (env : Env) (sel : WalletSelector.t) (min_conf : Z) (k : nat)
    : M (list Wallet.t) :=
  match k with
  | O => ret []
  | S k' =>
      let* w := WalletSelector.pick env sel min_conf in
      let* ws := picks env sel min_conf k' in
      ret (w :: ws)
  end.

(** The budget of attempts of a client. *)
Definition budget (c : RPCClient.t) : nat :=
  S (Z.to_nat (RPCClient.retry_attempts c) - 1).

End Obs.

(* ===================================================================== *)
(** ** More concrete worlds *)
(* ===================================================================== *)

Module Cases.
Import Py Effects Fixtures.

(** Nodes whose [signrawtransaction] answers an object with a [hex] entry,
    and whose [sendrawtransaction] answers a transaction id. *)
Definition env_signs : Env :=
  scripted
    (fun m => if str_eqb m (lit "signrawtransaction")
              then rpc_ok (VDict [(lit "hex", VStr (lit "cafe"));
                                  (lit "complete", VBool true)])
              else if str_eqb m (lit "sendrawtransaction")
              then rpc_ok (VStr (lit "beef"))
              else Fail RequestException)
    (fun _ => Fail RequestException).

(** The selector [WalletSelector([wallet_a, wallet_b])], with the default
    strategy. *)
Definition selector_round_robin : WalletSelector.t :=
  {| WalletSelector.wallets := [wallet_a; wallet_b];
     WalletSelector.strategy := lit "round_robin";
     WalletSelector.multi :=
       Some {| MultiWallet.wallets := [wallet_a; wallet_b] |} |}.

(** A node whose [listunspent] answers two outputs, of 1.0 and of 2.0, the
    second with an address of its own. *)
Definition env_two_outputs : Env :=
  scripted
    (fun m => if str_eqb m (lit "listunspent")
              then rpc_ok
                     (VList [VDict [(lit "txid", VStr txid0); (lit "vout", VInt 0);
                                    (lit "amount", VFloat 1)];
                             VDict [(lit "txid", VStr txid0); (lit "vout", VInt 1);
                                    (lit "amount", VFloat 2);
                                    (lit "address", VStr (lit "t1zzz"))]])
              else Fail RequestException)
    (fun _ => Fail RequestException).

(** The second of the two outputs. *)
Definition larger_output : UTXO.t :=
  {| UTXO.txid := VStr txid0; UTXO.vout := VInt 1; UTXO.amount := 2;
     UTXO.address := VStr (lit "t1zzz") |}.

(** A base configuration and a local override. *)
Definition cfg_base : list (str * value) :=
  [(lit "network", VDict [(lit "timeout", VInt 10); (lit "retry_wait", VInt 1)]);
   (lit "bot", VDict [(lit "retry", VInt 3)])].

Definition cfg_local : list (str * value) :=
  [(lit "network", VDict [(lit "timeout", VInt 30)]);
   (lit "secrets", VStr (lit "k"))].

End Cases.

(* ===================================================================== *)
(** ** The wire format as the specification words it *)
(* ===================================================================== *)

Module Spec.
Import Py.

(** The bytes of a literal in which the apostrophe stands for the double
    quote. *)
Definition json_bytes (s : string) : bytes :=
  map (fun b => if Byte.eqb b Byte.x27 then Byte.x22 else b) (list_byte_of_string s).




Definition is_ascii (s : str) : Prop := Forall (fun c => (c < 128)%N) s.

End Spec.

(* ===================================================================== *)
(** * Properties *)
(* ===================================================================== *)

(** ** The inscription wire format *)

Section WireFormat.
Import Py Spec.

Lemma encode_is_ascii (s : str) : is_ascii s -> encode s = Some (map byte_of_N s).
Proof.
  induction 1 as [|c r Hc _ IH]; simpl.
  - reflexivity.
  - unfold encode_char. apply N.ltb_lt in Hc. rewrite Hc, IH. reflexivity.
Qed.












End WireFormat.


(** ** Failover of the RPC client *)



Lemma map_seq_from (A : Type) (f : nat -> A) (n k : nat) :
  map f (seq k n) = map (fun j => f (k + j)) (seq 0 n).
Proof.
  revert k. induction n as [|n IH]; intros k; [reflexivity|].
  simpl. rewrite Nat.add_0_r. f_equal.
  rewrite IH, <- seq_shift, map_map.
  apply map_ext. intros j. f_equal. lia.
Qed.

(** A round robin of [k] steps and then [t] more is one of [k + t]. *)
Lemma round_robin_app (n i k t : nat) :
  map (fun j => (i + j) mod n) (seq 0 k)
  ++ map (fun j => ((i + k) mod n + j) mod n) (seq 0 t)
  = map (fun j => (i + j) mod n) (seq 0 (k + t)).
Proof.
  rewrite seq_app, map_app. f_equal. simpl.
  rewrite (map_seq_from (fun j => (i + j) mod n)).
  apply map_ext. intros j.
  rewrite Nat.Div0.add_mod_idemp_l. f_equal. lia.
Qed.

Section Failover.
Import Py Effects Trace Fixtures.

Variable env : Env.
Variable c : RPCClient.t.

Let N := List.length (RPCClient.nodes c).

(** An attempt records its node, and leaves the index where it was. *)
Lemma perform_request_effect (method : str) (params : list value) (w : World) :
  let '(r, w1) := RPCClient._perform_request env c method params w in
  rpc_index w1 = rpc_index w
  /\ rr_pos w1 = rr_pos w
  /\ gets w1 = gets w
  /\ trace w1 = trace w ++ [ERequest (rpc_index w) method params].
Proof.
  unfold RPCClient._perform_request, RPCClient._current_node,
    RPCClient._respect_rate_limit, bind, get_index, emit, ret, raise, post, lift.
  simpl.
  destruct (nth_error (RPCClient.nodes c) (rpc_index w)) as [node|]; simpl;
    [|auto].
  destruct (assoc (lit "url") node) as [url|]; simpl; [|auto].
  destruct (http_post env _ _ _ _) as [e|result]; simpl; [auto|].
  destruct (get_or result _ _) as [err|e]; simpl; [|auto].
  destruct (truthy err); simpl;
    try match goal with
        | |- context [getitem ?a ?k] => destruct (getitem a k)
        end; simpl; auto.
Qed.

(** One round of the loop of [call]. *)
Lemma call_loop_step (method : str) (params : list value) (more : nat) (w : World) :
  RPCClient.call_loop env c method params more w
  = match RPCClient._perform_request env c method params w with
    | (Ok v, w1) => (Ok v, w1)
    | (Raise e, w1) =>
        let w2 :=
          {| rpc_index := (rpc_index w1 + 1) mod N; rr_pos := rr_pos w1;
             posts := posts w1; gets := gets w1;
             trace := (trace w1 ++ [ELog ERROR "RPC error on %s: %s"])
                      ++ [ELog WARNING "Switching RPC to node %s"] |} in
        match more with
        | S more' =>
            if RPCClient.retryable e
            then RPCClient.call_loop env c method params more' w2
            else (Raise e, w2)
        | O => (Raise e, w2)
        end
    end.
Proof.
  destruct more; simpl; unfold try_except;
    destruct (RPCClient._perform_request env c method params w) as [[v|e] w1];
    try reflexivity.
  destruct (RPCClient.retryable e); reflexivity.
Qed.

Lemma visited_app (a b : list Event) : visited (a ++ b) = visited a ++ visited b.
Proof. unfold visited. apply flat_map_app. Qed.



End Failover.



(** That run: the three nodes in order, and the index back where it
    started. *)
Example failover_three_nodes :
  let '(r, w') :=
    RPCClient.call Fixtures.env_down Fixtures.client3 (Py.lit "getrawmempool") []
      Fixtures.w0 in
  r = Py.Raise Py.RequestException
  /\ Trace.visited (Effects.trace w') = [0; 1; 2]
  /\ Effects.rpc_index w' = 0.
Proof. vm_compute. repeat split. Qed.

(** With one attempt per call, three failing calls in a row do the same;
    a fourth starts over at the first node. *)
Example failover_three_calls :
  let '(r, w') :=
    Trace.call_each Fixtures.env_down Fixtures.client3_once
      [(Py.lit "getrawmempool", []); (Py.lit "getrawmempool", []);
       (Py.lit "getrawmempool", []); (Py.lit "getrawmempool", [])]
      Fixtures.w0 in
  Trace.visited (Effects.trace w') = [0; 1; 2; 0]
  /\ Effects.rpc_index w' = 1.
Proof. vm_compute. repeat split. Qed.

(** A call that succeeds leaves the index where it is. *)
Example success_keeps_node :
  let '(r, w') :=
    RPCClient.call (Fixtures.env_feerate (Py.VFloat 0.25)) Fixtures.client3
      (Py.lit "estimatesmartfee") [Py.VInt 2] Fixtures.w0 in
  r = Py.Ok (Py.VDict [(Py.lit "feerate", Py.VFloat 0.25)])
  /\ Trace.visited (Effects.trace w') = [0]
  /\ Effects.rpc_index w' = 0.
Proof. vm_compute. repeat split. Qed.

(** ** The fee cascade *)

Section FeeCascade.
Import Py Effects Trace Fixtures.

Variable env : Env.
Variable fe : FeeEstimator.t.

(** The node source swallows its errors. *)
Lemma estimate_from_rpc_total (w : World) :
  exists o w', FeeEstimator._estimate_from_rpc env fe w = (Ok o, w').
Proof.
  unfold FeeEstimator._estimate_from_rpc, try_except.
  match goal with
  | |- context [match ?m w with _ => _ end] => destruct (m w) as [[o|e] w1]
  end.
  - eauto.
  - unfold bind, log, emit, ret. simpl. eauto.
Qed.

(** So does the external source. *)
Lemma estimate_from_api_total (w : World) :
  exists o w', FeeEstimator._estimate_from_api env fe w = (Ok o, w').
Proof.
  unfold FeeEstimator._estimate_from_api.
  destruct (cfg_get (FeeEstimator.external_fee_api fe) (lit "url")) as [[|ch u]|];
    try (unfold ret; eauto).
  unfold try_except.
  match goal with
  | |- context [match ?m w with _ => _ end] => destruct (m w) as [[o|e] w1]
  end.
  - eauto.
  - unfold bind, log, emit, ret. simpl. eauto.
Qed.

(** The loop over the sources, one source at a time. *)
Lemma first_truthy_step (default : float) (source : M (option float))
    (rest : list (M (option float))) (w : World) (o : option float) (w1 : World) :
  source w = (Ok o, w1) ->
  FeeEstimator.first_truthy default (source :: rest) w
  = if FeeEstimator.fee_truthy o
    then (Ok match o with Some f => f | None => default end,
          with_events w1 [selected])
    else FeeEstimator.first_truthy default rest w1.
Proof.
  intros H. simpl. unfold bind. rewrite H.
  destruct o as [f|]; simpl; [|reflexivity].
  destruct (float_truthy f); reflexivity.
Qed.

Lemma first_truthy_total (default : float) (sources : list (M (option float))) :
  (forall s, In s sources -> forall w, exists o w', s w = (Ok o, w')) ->
  forall w, exists fee w', FeeEstimator.first_truthy default sources w = (Ok fee, w').
Proof.
  induction sources as [|s rest IH]; intros Hs w.
  - simpl. unfold ret. eauto.
  - destruct (Hs s (or_introl eq_refl) w) as (o & w1 & Ho).
    erewrite first_truthy_step by exact Ho.
    destruct (FeeEstimator.fee_truthy o); [eauto|].
    apply IH. intros s' Hin. apply Hs. right. exact Hin.
Qed.

Lemma estimate_dynamic :
  FeeEstimator.dynamic fe = true ->
  FeeEstimator.estimate env fe
  = FeeEstimator.first_truthy (FeeEstimator.default_fee fe)
      [FeeEstimator._estimate_from_rpc env fe;
       FeeEstimator._estimate_from_api env fe;
       ret (Some (FeeEstimator.default_fee fe))].
Proof. intros H. unfold FeeEstimator.estimate. rewrite H. reflexivity. Qed.

Lemma estimate_total (w : World) :
  exists fee w', FeeEstimator.estimate env fe w = (Ok fee, w').
Proof.
  unfold FeeEstimator.estimate.
  destruct (FeeEstimator.dynamic fe); simpl negb; cbv iota.
  - apply first_truthy_total. intros s [<-|[<-|[<-|[]]]] w'.
    + apply estimate_from_rpc_total.
    + apply estimate_from_api_total.
    + do 2 eexists. reflexivity.
  - do 2 eexists. reflexivity.
Qed.

Lemma estimate_static (w : World) :
  FeeEstimator.dynamic fe = false ->
  FeeEstimator.estimate env fe w = (Ok (FeeEstimator.default_fee fe), w).
Proof. intros H. unfold FeeEstimator.estimate. rewrite H. reflexivity. Qed.

(** The cascade in one equation: the first truthy fee in the order node,
    external API, default. *)
Lemma estimate_cases (w : World) :
  FeeEstimator.dynamic fe = true ->
  exists o1 w1 o2 w2,
    FeeEstimator._estimate_from_rpc env fe w = (Ok o1, w1)
    /\ FeeEstimator._estimate_from_api env fe w1 = (Ok o2, w2)
    /\ FeeEstimator.estimate env fe w
       = if FeeEstimator.fee_truthy o1
         then (Ok match o1 with
                  | Some f => f
                  | None => FeeEstimator.default_fee fe
                  end,
               with_events w1 [selected])
         else if FeeEstimator.fee_truthy o2
         then (Ok match o2 with
                  | Some f => f
                  | None => FeeEstimator.default_fee fe
                  end,
               with_events w2 [selected])
         else (Ok (FeeEstimator.default_fee fe),
               if float_truthy (FeeEstimator.default_fee fe)
               then with_events w2 [selected]
               else w2).
Proof.
  intros Hd.
  destruct (estimate_from_rpc_total w) as (o1 & w1 & H1).
  destruct (estimate_from_api_total w1) as (o2 & w2 & H2).
  exists o1, w1, o2, w2.
  split; [exact H1|]. split; [exact H2|].
  rewrite (estimate_dynamic Hd).
  erewrite first_truthy_step by exact H1.
  destruct (FeeEstimator.fee_truthy o1); [reflexivity|].
  erewrite first_truthy_step by exact H2.
  destruct (FeeEstimator.fee_truthy o2); [reflexivity|].
  erewrite first_truthy_step by reflexivity.
  simpl. destruct (float_truthy (FeeEstimator.default_fee fe)); reflexivity.
Qed.

End FeeCascade.

(** C4.  [estimate] always returns a fee and never raises.  With dynamic
    estimation off it returns the default at once, the world untouched.
    Otherwise: a truthy fee of the node source is returned and the run ends
    right after that source (one debug line more), so neither the external
    API nor the default source is consulted; when the node source gives
    nothing or a falsy fee and the external source a truthy one, that one is
    returned; when neither gives a truthy fee, the default is returned. *)
Theorem fee_cascade (env : Effects.Env) (fe : FeeEstimator.t) (w : Effects.World) :
  (exists fee w', FeeEstimator.estimate env fe w = (Py.Ok fee, w'))
  /\ (FeeEstimator.dynamic fe = false ->
      FeeEstimator.estimate env fe w = (Py.Ok (FeeEstimator.default_fee fe), w))
  /\ (FeeEstimator.dynamic fe = true ->
      exists o1 w1 o2 w2,
        FeeEstimator._estimate_from_rpc env fe w = (Py.Ok o1, w1)
        /\ FeeEstimator._estimate_from_api env fe w1 = (Py.Ok o2, w2)
        /\ (forall f, o1 = Some f -> Py.float_truthy f = true ->
            FeeEstimator.estimate env fe w
            = (Py.Ok f, Trace.with_events w1 [Trace.selected]))
        /\ (FeeEstimator.fee_truthy o1 = false ->
            forall f, o2 = Some f -> Py.float_truthy f = true ->
            FeeEstimator.estimate env fe w
            = (Py.Ok f, Trace.with_events w2 [Trace.selected]))
        /\ (FeeEstimator.fee_truthy o1 = false ->
            FeeEstimator.fee_truthy o2 = false ->
            FeeEstimator.estimate env fe w
            = (Py.Ok (FeeEstimator.default_fee fe),
               if Py.float_truthy (FeeEstimator.default_fee fe)
               then Trace.with_events w2 [Trace.selected]
               else w2))).
Proof.
  split; [apply estimate_total|]. split; [apply estimate_static|].
  intros Hd.
  destruct (estimate_cases env fe w Hd) as (o1 & w1 & o2 & w2 & H1 & H2 & He).
  exists o1, w1, o2, w2.
  split; [exact H1|]. split; [exact H2|]. rewrite He.
  split; [|split].
  - intros f -> Hf. simpl. rewrite Hf. reflexivity.
  - intros Hf1 f -> Hf. rewrite Hf1. simpl. rewrite Hf. reflexivity.
  - intros Hf1 Hf2. rewrite Hf1, Hf2. reflexivity.
Qed.

(** The three branches on concrete runs: the node's fee rate 0.25 gives
    0.25 * 0.4 and no GET is issued; with the nodes down the API's fee is
    taken; with everything down the default. *)
Example cascade_node_first :
  let '(r, w') :=
    FeeEstimator.estimate (Fixtures.env_feerate (Py.VFloat 0.25))
      (Fixtures.estimator 0.5) Fixtures.w0 in
  r = Py.Ok (0.25 * (400 / 1000))%float /\ Effects.gets w' = 0.
Proof. vm_compute. split; reflexivity. Qed.

Example cascade_api_second :
  let '(r, w') :=
    FeeEstimator.estimate (Fixtures.env_api_fee (Py.VFloat 0.125))
      (Fixtures.estimator 0.5) Fixtures.w0 in
  r = Py.Ok 0.125%float /\ Effects.gets w' = 1.
Proof. vm_compute. split; reflexivity. Qed.

Example cascade_default_last :
  fst (FeeEstimator.estimate Fixtures.env_down (Fixtures.estimator 0.5) Fixtures.w0)
  = Py.Ok 0.5%float.
Proof. vm_compute. reflexivity. Qed.

(** A zero from the node counts as no answer. *)
Example cascade_zero_falls_back :
  fst (FeeEstimator.estimate (Fixtures.env_feerate (Py.VFloat 0))
         (Fixtures.estimator 0.5) Fixtures.w0)
  = Py.Ok 0.5%float.
Proof. vm_compute. reflexivity. Qed.

(** C9, as stated, fails: a node that reports the fee rate -1 makes
    [estimate] return a negative fee. *)
Lemma fee_negative_from_node :
  match fst (FeeEstimator.estimate (Fixtures.env_feerate (Py.VInt (-1)))
               (Fixtures.estimator 0.5) Fixtures.w0) with
  | Py.Ok fee => (fee <? 0)%float = true /\ fee = ((-1) * (400 / 1000))%float
  | Py.Raise _ => False
  end.
Proof. vm_compute. split; reflexivity. Qed.

(** A negative configured default is returned as it is. *)
Example fee_negative_default :
  fst (FeeEstimator.estimate Fixtures.env_down (Fixtures.estimator (-0.5)) Fixtures.w0)
  = Py.Ok (-0.5)%float.
Proof. vm_compute. reflexivity. Qed.

(** C9, amended.  The fee returned is the configured default or the truthy
    value of the first source that has one: the default at once when dynamic
    estimation is off; otherwise the value of the node source when it is
    truthy, else the value of the external source when that is truthy, else
    the default.  A source counts as having no value exactly when its value
    is absent or zero, and that passes the turn to the next source: after the
    node source the external source is consulted, from the world the node
    source left.  All this holds for every configuration and every answer of
    the sources.  The fee is non-negative when the default is and the values
    of the two sources are: the estimator itself rejects no negative
    value. *)
Theorem fee_nonnegative_amended (env : Effects.Env) (fe : FeeEstimator.t)
    (w : Effects.World) :
  exists o1 w1 o2 w2 fee w',
    FeeEstimator._estimate_from_rpc env fe w = (Py.Ok o1, w1)
    /\ FeeEstimator._estimate_from_api env fe w1 = (Py.Ok o2, w2)
    /\ FeeEstimator.estimate env fe w = (Py.Ok fee, w')
    /\ (FeeEstimator.dynamic fe = false ->
        fee = FeeEstimator.default_fee fe /\ w' = w)
    /\ (FeeEstimator.dynamic fe = true ->
        FeeEstimator.fee_truthy o1 = true ->
        o1 = Some fee /\ w' = Trace.with_events w1 [Trace.selected])
    /\ (FeeEstimator.dynamic fe = true ->
        FeeEstimator.fee_truthy o1 = false ->
        FeeEstimator.fee_truthy o2 = true ->
        o2 = Some fee /\ w' = Trace.with_events w2 [Trace.selected])
    /\ (FeeEstimator.dynamic fe = true ->
        FeeEstimator.fee_truthy o1 = false ->
        FeeEstimator.fee_truthy o2 = false ->
        fee = FeeEstimator.default_fee fe
        /\ w' = if Py.float_truthy (FeeEstimator.default_fee fe)
                then Trace.with_events w2 [Trace.selected]
                else w2)
    /\ (forall o,
          FeeEstimator.fee_truthy o = false
          <-> o = None \/ exists f, o = Some f /\ (f =? 0)%float = true)
    /\ (FeeEstimator.dynamic fe = true ->
        FeeEstimator.fee_truthy o1 = false ->
        FeeEstimator.estimate env fe w
        = FeeEstimator.first_truthy (FeeEstimator.default_fee fe)
            [FeeEstimator._estimate_from_api env fe;
             Effects.ret (Some (FeeEstimator.default_fee fe))] w1)
    /\ ((0 <=? FeeEstimator.default_fee fe)%float = true ->
        (forall f, o1 = Some f -> (0 <=? f)%float = true) ->
        (forall f, o2 = Some f -> (0 <=? f)%float = true) ->
        (0 <=? fee)%float = true).
Proof.
  assert (Hzero : forall o,
            FeeEstimator.fee_truthy o = false
            <-> o = None \/ exists f, o = Some f /\ (f =? 0)%float = true).
  { intros [f|]; simpl; unfold Py.float_truthy; split.
    - intros H. right. exists f. split; [reflexivity|].
      apply negb_false_iff. exact H.
    - intros [H|(f' & [= <-] & H)]; [discriminate|]. rewrite H. reflexivity.
    - intros _. left. reflexivity.
    - reflexivity. }
  destruct (FeeEstimator.dynamic fe) eqn:Edyn.
  - destruct (estimate_cases env fe w Edyn)
      as (o1 & w1 & o2 & w2 & H1 & H2 & He).
    assert (Hnext : FeeEstimator.fee_truthy o1 = false ->
              FeeEstimator.estimate env fe w
              = FeeEstimator.first_truthy (FeeEstimator.default_fee fe)
                  [FeeEstimator._estimate_from_api env fe;
                   Effects.ret (Some (FeeEstimator.default_fee fe))] w1).
    { intros E1. rewrite (estimate_dynamic env fe Edyn).
      erewrite first_truthy_step by exact H1. rewrite E1. reflexivity. }
    exists o1, w1, o2, w2.
    destruct (FeeEstimator.fee_truthy o1) eqn:E1.
    + destruct o1 as [f|]; [|discriminate].
      exists f. eexists.
      split; [exact H1|]. split; [exact H2|]. split; [exact He|].
      split; [discriminate|]. split; [intros _ _; split; reflexivity|].
      split; [discriminate|]. split; [discriminate|].
      split; [exact Hzero|]. split; [discriminate|].
      intros _ Hs _. apply Hs. reflexivity.
    + destruct (FeeEstimator.fee_truthy o2) eqn:E2.
      * destruct o2 as [f|]; [|discriminate].
        exists f. eexists.
        split; [exact H1|]. split; [exact H2|]. split; [exact He|].
        split; [discriminate|]. split; [discriminate|].
        split; [intros _ _ _; split; reflexivity|].
        split; [discriminate|].
        split; [exact Hzero|]. split; [intros _ _; apply Hnext; reflexivity|].
        intros _ _ Hs. apply Hs. reflexivity.
      * eexists. eexists.
        split; [exact H1|]. split; [exact H2|]. split; [exact He|].
        split; [discriminate|]. split; [discriminate|].
        split; [discriminate|].
        split; [intros _ _ _; split; reflexivity|].
        split; [exact Hzero|]. split; [intros _ _; apply Hnext; reflexivity|].
        intros Hd _ _. exact Hd.
  - destruct (estimate_from_rpc_total env fe w) as (o1 & w1 & H1).
    destruct (estimate_from_api_total env fe w1) as (o2 & w2 & H2).
    exists o1, w1, o2, w2, (FeeEstimator.default_fee fe), w.
    split; [exact H1|]. split; [exact H2|].
    split; [apply estimate_static; exact Edyn|].
    split; [intros _; split; reflexivity|].
    split; [discriminate|]. split; [discriminate|]. split; [discriminate|].
    split; [exact Hzero|]. split; [discriminate|].
    intros Hd _ _. exact Hd.
Qed.

(** With the node's fee rate at 0.25 and the default at 0.5, the fee is the
    node's, and it is not negative. *)
Lemma fee_nonnegative_amended_witness :
  exists fee w',
    FeeEstimator.estimate (Fixtures.env_feerate (Py.VFloat 0.25))
      (Fixtures.estimator 0.5) Fixtures.w0 = (Py.Ok fee, w')
    /\ (0 <=? fee)%float = true.
Proof.
  destruct (fee_nonnegative_amended (Fixtures.env_feerate (Py.VFloat 0.25))
              (Fixtures.estimator 0.5) Fixtures.w0)
    as (o1 & w1 & o2 & w2 & fee & w' & H1 & H2 & He & _ & _ & _ & _ & _ & _ & Hs).
  exists fee, w'. split; [exact He|].
  vm_compute in H1. injection H1 as <- <-.
  vm_compute in H2. injection H2 as <- <-.
  apply Hs.
  - reflexivity.
  - intros f [= <-]. reflexivity.
  - intros f. discriminate.
Defined.

(** ** Which requests a computation can issue *)

Section Silence.
Import Py Effects Trace Fixtures.

Variable method : str.

Lemma requests_of_app (a b : list Event) :
  requests_of method (a ++ b) = requests_of method a + requests_of method b.
Proof. unfold requests_of. rewrite filter_app, length_app. reflexivity. Qed.

Lemma silent_ret (A : Type) (a : A) : silent method (ret a).
Proof. intros w. reflexivity. Qed.

Lemma silent_raise (A : Type) (e : exn) : silent method (@raise A e).
Proof. intros w. reflexivity. Qed.

Lemma silent_lift (A : Type) (r : result A) : silent method (lift r).
Proof. intros w. reflexivity. Qed.

Lemma silent_log (l : Level) (fmt : string) : silent method (log l fmt).
Proof.
  intros w. unfold requests_of. simpl. rewrite filter_app, length_app.
  simpl. lia.
Qed.

Lemma silent_get (env : Env) (url : str) (ps : list (str * str)) :
  silent method (get env url ps).
Proof.
  intros w. unfold requests_of. simpl. rewrite filter_app, length_app.
  simpl. lia.
Qed.

Lemma silent_bind (A B : Type) (m : M A) (k : A -> M B) :
  silent method m -> (forall a, silent method (k a)) -> silent method (bind m k).
Proof.
  intros Hm Hk w. unfold bind. specialize (Hm w).
  destruct (m w) as [[a|e] w1]; simpl in *.
  - rewrite <- Hm. apply Hk.
  - exact Hm.
Qed.

Lemma silent_try (A : Type) (m : M A) (h : exn -> M A) :
  silent method m -> (forall e, silent method (h e)) ->
  silent method (try_except m h).
Proof.
  intros Hm Hh w. unfold try_except. specialize (Hm w).
  destruct (m w) as [[a|e] w1]; simpl in *.
  - exact Hm.
  - rewrite <- Hm. apply Hh.
Qed.

Lemma requests_of_other (i : nat) (m : str) (ps : list value) :
  str_eqb m method = false -> requests_of method [ERequest i m ps] = 0.
Proof. intros H. unfold requests_of. simpl. rewrite H. reflexivity. Qed.

(** A call for another method adds no request for [method]. *)
Lemma silent_call (env : Env) (c : RPCClient.t) (m : str) (ps : list value) :
  str_eqb m method = false -> silent method (RPCClient.call env c m ps).
Proof.
  intros Hm. unfold RPCClient.call.
  generalize (Z.to_nat (RPCClient.retry_attempts c) - 1) as more.
  induction more as [|more IH]; intros w; rewrite call_loop_step;
    pose proof (perform_request_effect env c m ps w) as Hp;
    destruct (RPCClient._perform_request env c m ps w) as [[v|e] w1];
    destruct Hp as (_ & _ & _ & Ht);
    assert (H1 : requests_of method (trace w1) = requests_of method (trace w))
      by (rewrite Ht, requests_of_app; erewrite requests_of_other by exact Hm; lia);
    assert (Hstep : forall w2 : World,
              trace w2 = (trace w1 ++ [ELog ERROR "RPC error on %s: %s"])
                         ++ [ELog WARNING "Switching RPC to node %s"] ->
              requests_of method (trace w2) = requests_of method (trace w))
      by (intros w2 ->; rewrite !requests_of_app, H1; cbn; lia);
    cbv zeta; cbn [snd].
  - exact H1.
  - apply Hstep. reflexivity.
  - exact H1.
  - destruct (RPCClient.retryable e); cbn [snd].
    + rewrite IH. apply Hstep. reflexivity.
    + apply Hstep. reflexivity.
Qed.

End Silence.

(** The steps of a [silent] proof. *)
Ltac silence :=
  repeat first
    [ apply silent_ret
    | apply silent_raise
    | apply silent_lift
    | apply silent_log
    | apply silent_get
    | apply silent_call; reflexivity
    | apply silent_bind; [|intros ?]
    | apply silent_try; [|intros ?]
    | match goal with
      | |- Trace.silent _ (match ?x with _ => _ end) => destruct x
      end ].

Section Gating.
Import Py Effects Trace Fixtures.

Variable env : Env.

(** Fee estimation asks the nodes for [estimatesmartfee] only. *)
Lemma silent_estimate (method : str) (fe : FeeEstimator.t) :
  str_eqb (lit "estimatesmartfee") method = false ->
  silent method (FeeEstimator.estimate env fe).
Proof.
  intros Hm. unfold FeeEstimator.estimate.
  destruct (negb (FeeEstimator.dynamic fe)); [apply silent_ret|].
  assert (H1 : silent method (FeeEstimator._estimate_from_rpc env fe)).
  { unfold FeeEstimator._estimate_from_rpc. apply silent_try.
    - apply silent_bind; [apply silent_call; exact Hm|]. intros r. silence.
    - intros e. silence. }
  assert (H2 : silent method (FeeEstimator._estimate_from_api env fe)).
  { unfold FeeEstimator._estimate_from_api. silence. }
  assert (H3 : silent method (ret (Some (FeeEstimator.default_fee fe))))
    by apply silent_ret.
  generalize (FeeEstimator.default_fee fe) at 1 as default.
  intros default.
  assert (Hall : Forall (silent method (A:=option float))
            [FeeEstimator._estimate_from_rpc env fe;
             FeeEstimator._estimate_from_api env fe;
             ret (Some (FeeEstimator.default_fee fe))])
    by (repeat constructor; assumption).
  revert Hall.
  generalize [FeeEstimator._estimate_from_rpc env fe;
              FeeEstimator._estimate_from_api env fe;
              ret (Some (FeeEstimator.default_fee fe))] as sources.
  induction sources as [|s rest IH]; intros Hall; simpl.
  - apply silent_ret.
  - inversion Hall; subst.
    apply silent_bind; [assumption|].
    intros [f|]; [destruct (float_truthy f)|]; auto.
    silence.
Qed.

(** Gating asks the nodes for the mempool and its transactions only. *)
Lemma silent_should_proceed (method : str) (eng : MintEngine.t) (tick : str) :
  str_eqb (lit "getrawmempool") method = false ->
  str_eqb (lit "getrawtransaction") method = false ->
  silent method (MintEngine._should_proceed env eng tick).
Proof.
  intros Hm Ht. unfold MintEngine._should_proceed.
  apply silent_bind.
  - destruct (MintEngine.ticker_watcher eng) as [tw|]; [|apply silent_ret].
    unfold ExternalTickerWatcher.is_tick_live. silence.
  - intros live. destruct (negb live); [silence|].
    apply silent_bind; [|intros p; silence].
    destruct (MintEngine.mempool_scanner eng) as [ms|]; [|apply silent_ret].
    unfold MempoolScanner.contains_tick. apply silent_bind.
    + apply silent_try; [|intros e; silence].
      apply silent_bind; [apply silent_call; exact Hm | intros v; silence].
    + intros [v|]; [|apply silent_ret].
      apply silent_bind; [apply silent_lift|]. intros hd.
      apply silent_bind; [apply silent_lift|]. intros items.
      induction items as [|txid rest IH]; simpl; [apply silent_ret|].
      apply silent_bind; [|intros hit; destruct hit; [apply silent_ret | exact IH]].
      apply silent_try; [|intros e; silence].
      apply silent_bind; [apply silent_call; exact Ht | intros raw; silence].
Qed.

End Gating.

(** ** The mint engine *)

Section Mint.
Import Py Effects Trace Fixtures.

Variable env : Env.
Variable eng : MintEngine.t.

(** An attempt whose transaction cannot be built fails where it stands. *)
Lemma execute_build_fails (utxo : UTXO.t) (dest : str)
    (json : list (str * str)) (fee : float) (e : exn) (w : World) :
  MintEngine._build_transaction env utxo dest (json_dumps_compact json) fee
  = Raise e ->
  MintEngine._execute env eng utxo dest json fee w = (Raise e, w).
Proof.
  intros H. unfold MintEngine._execute, bind, lift. rewrite H. reflexivity.
Qed.

(** Every attempt of the loop is made when the build fails: the budget is
    used up, and the exception of the last attempt comes out. *)
Lemma attempt_loop_build_fails (utxo : UTXO.t) (dest : str)
    (json : list (str * str)) (fee : float) (e : exn) (more : nat) :
  MintEngine._build_transaction env utxo dest (json_dumps_compact json) fee
  = Raise e ->
  forall w,
    MintEngine.attempt_loop env eng utxo dest json fee more w
    = (Raise e, with_events w (repeat attempt_failed (S more))).
Proof.
  intros H. induction more as [|more IH]; intros w; simpl;
    unfold try_except, bind, MintEngine._respect_rate_limit, ret;
    erewrite execute_build_fails by exact H; simpl.
  - reflexivity.
  - rewrite IH. unfold with_events. simpl. rewrite <- app_assoc. reflexivity.
Qed.

Lemma build_insufficient (utxo : UTXO.t) (dest : str) (json : str)
    (fee : float) (txid : bytes) :
  MintEngine.lx (UTXO.txid utxo) = Ok txid ->
  (UTXO.amount utxo - fee <=? 0)%float = true ->
  MintEngine._build_transaction env utxo dest json fee
  = Raise MintEngine.insufficient_funds.
Proof.
  intros Hlx Hle. unfold MintEngine._build_transaction.
  rewrite Hlx, Hle. reflexivity.
Qed.

Lemma requests_of_logs (method : str) (n : nat) :
  requests_of method (minting :: repeat attempt_failed n) = 0.
Proof. induction n as [|n IH]; [reflexivity | exact IH]. Qed.

(** What [is_tick_live] did when it says no: one GET, answered by an
    object. *)
Lemma not_live_effect (tw : ExternalTickerWatcher.t) (tick : str) (w w1 : World) :
  ExternalTickerWatcher.is_tick_live env tw tick w = (Ok false, w1) ->
  exists url,
    cfg_get (ExternalTickerWatcher.api_cfg tw) (lit "url") = Some url
    /\ w1 = after_get w url [(lit "tick", tick)].
Proof.
  unfold ExternalTickerWatcher.is_tick_live.
  destruct (cfg_get (ExternalTickerWatcher.api_cfg tw) (lit "url"))
    as [[|ch u]|]; try discriminate.
  unfold try_except, bind, get, raise, ret, lift, log, emit. simpl.
  destruct (http_get env (gets w) (ch :: u) [(lit "tick", tick)]) as [e|data];
    simpl; try discriminate.
  destruct (get_or data (lit "live") (VBool true)) as [live|e]; simpl;
    try discriminate.
  intros H. injection H as _ <-. exists (ch :: u). split; reflexivity.
Qed.

End Mint.

(** C1, as stated, fails: with the default budget of three attempts, an
    amount of 10 and a fee of 11, [mint] does fail with the insufficient-funds
    error, but after three attempts, not one. *)
Lemma mint_insufficient_funds_retried :
  let '(r, w') :=
    MintEngine.mint Fixtures.env_down (Fixtures.engine_fixed 11 3)
      (Fixtures.utxo_of 10) (Py.lit "ZERO") 100 Fixtures.dest0 Fixtures.w0 in
  (10 - 11 <=? 0)%float = true
  /\ r = Py.Raise MintEngine.insufficient_funds
  /\ Trace.failed_mint_attempts (Effects.trace w') = 3
  /\ Trace.failed_mint_attempts (Effects.trace w') <> 1.
Proof. vm_compute. repeat split. discriminate. Qed.

(** C1, amended.  When gating lets the tick pass, the UTXO's txid is
    hexadecimal, and the UTXO's amount minus the estimated fee is at most
    zero, [mint] fails with the insufficient-funds error after
    [max(1, retry_attempts)] attempts, each of which stops at the same check
    and is logged; after the fee estimation nothing but log lines is
    produced, and the whole call issues no [signrawtransaction] and no
    [sendrawtransaction] request. *)
Theorem mint_insufficient_funds_amended (env : Effects.Env) (eng : MintEngine.t)
    (utxo : UTXO.t) (tick : Py.str) (amount : Z) (dest : Py.str)
    (w w1 w2 : Effects.World) (fee : float) (txid : Py.bytes) :
  MintEngine._should_proceed env eng tick w = (Py.Ok true, w1) ->
  FeeEstimator.estimate env (MintEngine.fee_estimator eng) w1 = (Py.Ok fee, w2) ->
  MintEngine.lx (UTXO.txid utxo) = Py.Ok txid ->
  (UTXO.amount utxo - fee <=? 0)%float = true ->
  let n := Nat.max 1 (Z.to_nat (MintEngine.attempts eng)) in
  let '(r, w') := MintEngine.mint env eng utxo tick amount dest w in
  r = Py.Raise MintEngine.insufficient_funds
  /\ w' = Trace.with_events w2
            (Trace.minting :: repeat Trace.attempt_failed n)
  /\ Trace.requests_of (Py.lit "signrawtransaction") (Effects.trace w')
     = Trace.requests_of (Py.lit "signrawtransaction") (Effects.trace w)
  /\ Trace.requests_of (Py.lit "sendrawtransaction") (Effects.trace w')
     = Trace.requests_of (Py.lit "sendrawtransaction") (Effects.trace w).
Proof.
  intros Hgate Hfee Hlx Hle n.
  assert (Hmint : MintEngine.mint env eng utxo tick amount dest w
                  = (Py.Raise MintEngine.insufficient_funds,
                     Trace.with_events w2
                       (Trace.minting :: repeat Trace.attempt_failed n))).
  { unfold MintEngine.mint, Effects.bind. rewrite Hgate. cbn [negb].
    rewrite Hfee. simpl.
    erewrite attempt_loop_build_fails
      by (eapply build_insufficient; eassumption).
    unfold Trace.with_events. simpl. rewrite <- app_assoc. simpl.
    assert (Hn : n = S (Z.to_nat (MintEngine.attempts eng) - 1))
      by (unfold n; lia).
    rewrite Hn. reflexivity. }
  rewrite Hmint. split; [reflexivity|]. split; [reflexivity|].
  assert (Hsilent : forall m,
            Py.str_eqb (Py.lit "getrawmempool") m = false ->
            Py.str_eqb (Py.lit "getrawtransaction") m = false ->
            Py.str_eqb (Py.lit "estimatesmartfee") m = false ->
            Trace.requests_of m
              (Effects.trace
                 (Trace.with_events w2
                    (Trace.minting :: repeat Trace.attempt_failed n)))
            = Trace.requests_of m (Effects.trace w)).
  { intros m H1 H2 H3.
    pose proof (@silent_should_proceed env m eng tick H1 H2 w) as Hg.
    pose proof (@silent_estimate env m (MintEngine.fee_estimator eng) H3 w1) as He.
    rewrite Hgate in Hg. rewrite Hfee in He. simpl in Hg, He.
    simpl Effects.trace. rewrite requests_of_app, requests_of_logs. lia. }
  split; apply Hsilent; reflexivity.
Qed.

(** Amount 10, fee 11, a budget of three. *)
Lemma mint_insufficient_funds_amended_witness :
  let '(r, w') :=
    MintEngine.mint Fixtures.env_down (Fixtures.engine_fixed 11 3)
      (Fixtures.utxo_of 10) (Py.lit "ZERO") 100 Fixtures.dest0 Fixtures.w0 in
  r = Py.Raise MintEngine.insufficient_funds
  /\ w' = Trace.with_events Fixtures.w0
            (Trace.minting :: repeat Trace.attempt_failed 3)
  /\ Trace.requests_of (Py.lit "signrawtransaction") (Effects.trace w') = 0
  /\ Trace.requests_of (Py.lit "sendrawtransaction") (Effects.trace w') = 0.
Proof.
  apply (@mint_insufficient_funds_amended Fixtures.env_down
           (Fixtures.engine_fixed 11 3) (Fixtures.utxo_of 10) (Py.lit "ZERO") 100
           Fixtures.dest0 Fixtures.w0 Fixtures.w0 Fixtures.w0 11%float
           (rev (match Py.unhexlify Fixtures.txid0 with
                 | Some b => b
                 | None => []
                 end)));
    vm_compute; reflexivity.
Defined.

(** C5, as stated, fails: with a ticker watcher that reports the tick not
    live, [mint] raises. *)
Lemma mint_gated_raises_error :
  fst (MintEngine.mint Fixtures.env_not_live Fixtures.engine_watched
         (Fixtures.utxo_of 1) (Py.lit "ZERO") 100 Fixtures.dest0 Fixtures.w0)
  = Py.Raise (Py.RuntimeError (Py.lit "Tick ZERO gated by watcher")).
Proof. vm_compute. reflexivity. Qed.

(** C5, amended.  When gating rejects the tick, [mint] raises
    [RuntimeError("Tick <tick> gated by watcher")] right after the gating
    checks: the world is the one gating left, so no fee is estimated and
    nothing is signed or broadcast.  The boolean outcome is the one of
    [can_mint], which returns false in the same world. *)
Theorem mint_gated_amended (env : Effects.Env) (eng : MintEngine.t)
    (utxo : UTXO.t) (tick : Py.str) (amount : Z) (dest : Py.str)
    (w w1 : Effects.World) :
  MintEngine._should_proceed env eng tick w = (Py.Ok false, w1) ->
  MintEngine.mint env eng utxo tick amount dest w
  = (Py.Raise (MintEngine.gated tick), w1)
  /\ MintEngine.can_mint env eng tick w = (Py.Ok false, w1)
  /\ Trace.requests_of (Py.lit "estimatesmartfee") (Effects.trace w1)
     = Trace.requests_of (Py.lit "estimatesmartfee") (Effects.trace w)
  /\ Trace.requests_of (Py.lit "signrawtransaction") (Effects.trace w1)
     = Trace.requests_of (Py.lit "signrawtransaction") (Effects.trace w)
  /\ Trace.requests_of (Py.lit "sendrawtransaction") (Effects.trace w1)
     = Trace.requests_of (Py.lit "sendrawtransaction") (Effects.trace w).
Proof.
  intros Hgate. split; [|split].
  - unfold MintEngine.mint, Effects.bind. rewrite Hgate. reflexivity.
  - exact Hgate.
  - assert (Hsilent : forall m,
              Py.str_eqb (Py.lit "getrawmempool") m = false ->
              Py.str_eqb (Py.lit "getrawtransaction") m = false ->
              Trace.requests_of m (Effects.trace w1)
              = Trace.requests_of m (Effects.trace w)).
    { intros m H1 H2.
      pose proof (@silent_should_proceed env m eng tick H1 H2 w) as Hg.
      rewrite Hgate in Hg. exact Hg. }
    repeat split; apply Hsilent; reflexivity.
Qed.

Lemma mint_gated_amended_witness :
  fst (MintEngine.mint Fixtures.env_not_live Fixtures.engine_watched
         (Fixtures.utxo_of 1) (Py.lit "ZERO") 100 Fixtures.dest0 Fixtures.w0)
  = Py.Raise (MintEngine.gated (Py.lit "ZERO")).
Proof.
  rewrite (proj1 (@mint_gated_amended Fixtures.env_not_live
                    Fixtures.engine_watched (Fixtures.utxo_of 1) (Py.lit "ZERO")
                    100 Fixtures.dest0 Fixtures.w0
                    (Trace.with_events
                       (Trace.after_get Fixtures.w0 (Py.lit "http://ticker/api")
                          [(Py.lit "tick", Py.lit "ZERO")])
                       [Trace.not_live])
                    eq_refl)).
  reflexivity.
Defined.

(** C6.  When the configured ticker watcher reports the tick not live,
    [mint] stops at the gate: it raises the gating error, and all it has done
    is the watcher's one GET and one debug line.  No request goes to a node
    (so no [estimatesmartfee] and no [sendrawtransaction]), and no other GET
    is made (so the external fee API is not asked either). *)
Theorem mint_gating_before_fee (env : Effects.Env) (eng : MintEngine.t)
    (tw : ExternalTickerWatcher.t) (utxo : UTXO.t) (tick : Py.str) (amount : Z)
    (dest : Py.str) (w w1 : Effects.World) :
  MintEngine.ticker_watcher eng = Some tw ->
  ExternalTickerWatcher.is_tick_live env tw tick w = (Py.Ok false, w1) ->
  exists url w',
    Effects.cfg_get (ExternalTickerWatcher.api_cfg tw) (Py.lit "url") = Some url
    /\ MintEngine.mint env eng utxo tick amount dest w
       = (Py.Raise (MintEngine.gated tick), w')
    /\ w' = Trace.with_events
              (Trace.after_get w url [(Py.lit "tick", tick)])
              [Trace.not_live]
    /\ Effects.posts w' = Effects.posts w
    /\ Effects.gets w' = S (Effects.gets w)
    /\ Trace.visited (Effects.trace w') = Trace.visited (Effects.trace w)
    /\ (forall method,
          Trace.requests_of method (Effects.trace w')
          = Trace.requests_of method (Effects.trace w)).
Proof.
  intros Htw Hlive.
  destruct (not_live_effect env tw tick w Hlive) as (url & Hurl & ->).
  exists url. eexists. split; [exact Hurl|]. split.
  - unfold MintEngine.mint, MintEngine._should_proceed, Effects.bind.
    rewrite Htw, Hlive. reflexivity.
  - split; [reflexivity|]. split; [reflexivity|]. split; [reflexivity|]. split.
    + simpl. rewrite <- app_assoc, visited_app. simpl. apply app_nil_r.
    + intros method. unfold Trace.requests_of. simpl.
      rewrite <- app_assoc, filter_app, length_app. simpl. lia.
Qed.

Lemma mint_gating_before_fee_witness :
  exists url w',
    Effects.cfg_get Fixtures.ticker_cfg (Py.lit "url") = Some url
    /\ MintEngine.mint Fixtures.env_not_live Fixtures.engine_watched
         (Fixtures.utxo_of 1) (Py.lit "ZERO") 100 Fixtures.dest0 Fixtures.w0
       = (Py.Raise (MintEngine.gated (Py.lit "ZERO")), w')
    /\ w' = Trace.with_events
              (Trace.after_get Fixtures.w0 url [(Py.lit "tick", Py.lit "ZERO")])
              [Trace.not_live]
    /\ Effects.posts w' = 0
    /\ Effects.gets w' = 1
    /\ Trace.visited (Effects.trace w') = []
    /\ (forall method, Trace.requests_of method (Effects.trace w') = 0).
Proof.
  apply (@mint_gating_before_fee Fixtures.env_not_live Fixtures.engine_watched
           {| ExternalTickerWatcher.api_cfg := Fixtures.ticker_cfg |}
           (Fixtures.utxo_of 1) (Py.lit "ZERO") 100 Fixtures.dest0 Fixtures.w0
           (Trace.after_get Fixtures.w0 (Py.lit "http://ticker/api")
              [(Py.lit "tick", Py.lit "ZERO")])).
  - reflexivity.
  - vm_compute. reflexivity.
Defined.

(** C10.  In an attempt whose [signrawtransaction] answer is an object
    without a [hex] key, the engine goes on to [sendrawtransaction] with the
    unsigned raw hex as its one parameter, and the attempt ends as that
    broadcast ends: when the broadcast returns a transaction id, the attempt,
    and with it the retry loop, returns it. *)
Theorem unsigned_hex_fallback (env : Effects.Env) (eng : MintEngine.t)
    (utxo : UTXO.t) (dest : Py.str) (json : list (Py.str * Py.str)) (fee : float)
    (raw_hex : Py.str) (kv : list (Py.str * Py.value)) (w w1 : Effects.World) :
  MintEngine._build_transaction env utxo dest (Py.json_dumps_compact json) fee
  = Py.Ok raw_hex ->
  RPCClient.call env (MintEngine.rpc eng) (Py.lit "signrawtransaction")
    [Py.VStr raw_hex] w = (Py.Ok (Py.VDict kv), w1) ->
  Py.assoc (Py.lit "hex") kv = None ->
  MintEngine._execute env eng utxo dest json fee w
  = match RPCClient.call env (MintEngine.rpc eng) (Py.lit "sendrawtransaction")
            [Py.VStr raw_hex] w1 with
    | (Py.Ok txid, w2) => (Py.Ok txid, Trace.with_events w2 [Trace.broadcasted])
    | (Py.Raise e, w2) => (Py.Raise e, w2)
    end
  /\ forall txid w2 more,
      RPCClient.call env (MintEngine.rpc eng) (Py.lit "sendrawtransaction")
        [Py.VStr raw_hex] w1 = (Py.Ok txid, w2) ->
      MintEngine.attempt_loop env eng utxo dest json fee more w
      = (Py.Ok txid, Trace.with_events w2 [Trace.broadcasted]).
Proof.
  intros Hbuild Hsign Hkey.
  assert (Hexec : MintEngine._execute env eng utxo dest json fee w
            = match RPCClient.call env (MintEngine.rpc eng)
                      (Py.lit "sendrawtransaction") [Py.VStr raw_hex] w1 with
              | (Py.Ok txid, w2) =>
                  (Py.Ok txid, Trace.with_events w2 [Trace.broadcasted])
              | (Py.Raise e, w2) => (Py.Raise e, w2)
              end).
  { unfold MintEngine._execute, Effects.bind, Effects.lift.
    rewrite Hbuild, Hsign. simpl. rewrite Hkey.
    destruct (RPCClient.call env (MintEngine.rpc eng)
                (Py.lit "sendrawtransaction") [Py.VStr raw_hex] w1)
      as [[txid|e] w2]; reflexivity. }
  split; [exact Hexec|].
  intros txid w2 more Hsend.
  destruct more; simpl;
    unfold Effects.try_except, Effects.bind, MintEngine._respect_rate_limit,
      Effects.ret;
    rewrite Hexec, Hsend; reflexivity.
Qed.

Lemma unsigned_hex_fallback_witness :
  MintEngine.attempt_loop Fixtures.env_sign_nohex (Fixtures.engine_fixed 0.5 3)
    (Fixtures.utxo_of 1) Fixtures.dest0
    (Inscription.mint_payload (Py.lit "ZERO") 100) 0.5 2 Fixtures.w0
  = (Py.Ok (Py.VStr (Py.lit "beef")),
     Trace.with_events
       (snd (RPCClient.call Fixtures.env_sign_nohex Fixtures.client3
               (Py.lit "sendrawtransaction") [Py.VStr (Py.lit "0100")]
               (snd (RPCClient.call Fixtures.env_sign_nohex Fixtures.client3
                       (Py.lit "signrawtransaction") [Py.VStr (Py.lit "0100")]
                       Fixtures.w0))))
       [Trace.broadcasted]).
Proof.
  apply (proj2 (@unsigned_hex_fallback Fixtures.env_sign_nohex
                  (Fixtures.engine_fixed 0.5 3) (Fixtures.utxo_of 1) Fixtures.dest0
                  (Inscription.mint_payload (Py.lit "ZERO") 100) 0.5
                  (Py.lit "0100") [(Py.lit "complete", Py.VBool false)]
                  Fixtures.w0
                  (snd (RPCClient.call Fixtures.env_sign_nohex Fixtures.client3
                          (Py.lit "signrawtransaction") [Py.VStr (Py.lit "0100")]
                          Fixtures.w0))
                  eq_refl eq_refl eq_refl)).
  vm_compute. reflexivity.
Defined.

(** The unsigned hex is what the node is sent. *)
Example unsigned_hex_is_broadcast :
  let '(r, w') :=
    MintEngine.mint Fixtures.env_sign_nohex (Fixtures.engine_fixed 0.5 3)
      (Fixtures.utxo_of 1) (Py.lit "ZERO") 100 Fixtures.dest0 Fixtures.w0 in
  r = Py.Ok (Py.VStr (Py.lit "beef"))
  /\ In (Effects.ERequest 0 (Py.lit "sendrawtransaction") [Py.VStr (Py.lit "0100")])
        (Effects.trace w').
Proof. vm_compute. split; [reflexivity|]. auto 10. Qed.

(** ** The mempool scanner *)

Section Scanner.
Import Py Effects Trace Fixtures.

Lemma lower_char_cases (c : N) :
  (65 <= c <= 90 /\ lower_char c = c + 32)%N
  \/ ((c < 65 \/ 90 < c) /\ lower_char c = c)%N.
Proof.
  unfold lower_char.
  destruct (N.leb_spec 65 c); destruct (N.leb_spec c 90); simpl; lia.
Qed.

Lemma hexval_lower (c : N) : hexval (lower_char c) = hexval c.
Proof.
  destruct (lower_char_cases c) as [[Hc ->]|[Hc ->]]; [|reflexivity].
  unfold hexval.
  destruct (N.le_gt_cases c 70);
    repeat match goal with
           | |- context [(?a <=? ?b)%N] =>
               first [ replace (a <=? b)%N with true
                         by (symmetry; apply N.leb_le; lia)
                     | replace (a <=? b)%N with false
                         by (symmetry; apply N.leb_gt; lia) ]
           end; simpl; try reflexivity; f_equal; lia.
Qed.

Lemma is_space_lower (c : N) : is_space (lower_char c) = is_space c.
Proof.
  destruct (lower_char_cases c) as [[Hc ->]|[Hc ->]]; [|reflexivity].
  unfold is_space.
  repeat match goal with
         | |- context [(?a <=? ?b)%N] => destruct (N.leb_spec a b)
         | |- context [(?a =? ?b)%N] => destruct (N.eqb_spec a b)
         end; simpl; try reflexivity; lia.
Qed.

(** Lower-casing the hexadecimal text does not change the bytes it
    denotes. *)
Lemma fromhex_lower (s : str) : fromhex (lower s) = fromhex s.
Proof.
  assert (H : forall n (t : str), List.length t <= n -> fromhex (lower t) = fromhex t).
  { induction n as [|n IH]; intros t Hlen.
    - destruct t; [reflexivity | simpl in Hlen; lia].
    - destruct t as [|c r]; [reflexivity|].
      simpl in Hlen. simpl. rewrite is_space_lower.
      destruct (is_space c).
      + apply IH. lia.
      + destruct r as [|d r']; [reflexivity|].
        simpl in Hlen. simpl. rewrite !hexval_lower.
        change (map lower_char r') with (lower r').
        rewrite (IH r') by lia. reflexivity. }
  apply (H (List.length s)). lia.
Qed.

(** The test of the scanner folds the case of the tick only: the bytes of
    the transaction are searched as they are. *)
Lemma tick_in_raw_case_sensitive (tick raw : str) :
  MempoolScanner.tick_in_raw tick (VStr raw)
  = match encode (lower tick) with
    | None => Raise UnicodeEncodeError
    | Some needle =>
        match fromhex raw with
        | Some b => Ok (contains needle b)
        | None => Raise ValueError
        end
    end.
Proof. unfold MempoolScanner.tick_in_raw. rewrite fromhex_lower. reflexivity. Qed.

End Scanner.

(** C7: the code at the failing input.  The one pending transaction holds
    the bytes of ["tick":"ZERO"], as the engine's own mint payload for the
    tick ZERO does; the scan for the tick ZERO, and for zero, finds nothing.
    The tick is folded to lower case, the bytes of the transaction are not:
    only a lower-case occurrence is found, and the first hit ends the
    scan. *)
Theorem contains_tick_misses_uppercase :
  Py.fromhex (Py.lit "227469636b223a225a45524f22") = Some (Spec.json_bytes "'tick':'ZERO'")
  /\ fst (MempoolScanner.contains_tick
            (Fixtures.env_mempool (Py.lit "227469636b223a225a45524f22"))
            Fixtures.scanner (Py.lit "ZERO") Fixtures.w0) = Py.Ok false
  /\ fst (MempoolScanner.contains_tick
            (Fixtures.env_mempool (Py.lit "227469636b223a225a45524f22"))
            Fixtures.scanner (Py.lit "zero") Fixtures.w0) = Py.Ok false
  /\ Py.fromhex (Py.lit "227469636b223a227a65726f22") = Some (Spec.json_bytes "'tick':'zero'")
  /\ fst (MempoolScanner.contains_tick
            (Fixtures.env_mempool (Py.lit "227469636b223a227a65726f22"))
            Fixtures.scanner (Py.lit "ZERO") Fixtures.w0) = Py.Ok true.
Proof. vm_compute. repeat split. Qed.

(** ** The wallet selector *)

(** C8: the code on the strategy "richest".  With more than one wallet,
    [pick] looks up the attribute [richest] on the [MultiWallet], which has
    none of that name (its method is [richest_wallet]): every such pick
    raises [AttributeError], whatever the balances, and touches nothing. *)
Theorem pick_richest_raises (env : Effects.Env) (sel : WalletSelector.t)
    (m : MultiWallet.t) (min_conf : Z) (w : Effects.World) :
  WalletSelector.multi sel = Some m ->
  WalletSelector.strategy sel = Py.lit "richest" ->
  WalletSelector.pick env sel min_conf w
  = (Py.Raise (Py.AttributeError (Py.lit "richest")), w).
Proof.
  intros Hm Hs. unfold WalletSelector.pick. rewrite Hm, Hs. reflexivity.
Qed.

Lemma pick_richest_raises_witness :
  WalletSelector.pick Fixtures.env_balances Fixtures.selector_richest 1 Fixtures.w0
  = (Py.Raise (Py.AttributeError (Py.lit "richest")), Fixtures.w0).
Proof.
  apply (@pick_richest_raises Fixtures.env_balances Fixtures.selector_richest
           {| MultiWallet.wallets := [Fixtures.wallet_a; Fixtures.wallet_b] |}
           1 Fixtures.w0); reflexivity.
Defined.

(** That selector is the one [__init__] builds, and on the same node
    [MultiWallet.richest_wallet] does return the richer wallet. *)
Example selector_richest_init :
  fst (WalletSelector.init [Fixtures.wallet_a; Fixtures.wallet_b]
         (Py.lit "richest") Fixtures.w0)
  = Py.Ok Fixtures.selector_richest.
Proof. reflexivity. Qed.

Example richest_wallet_returns_richest :
  fst (MultiWallet.richest_wallet Fixtures.env_balances
         {| MultiWallet.wallets := [Fixtures.wallet_a; Fixtures.wallet_b] |}
         1 Fixtures.w0)
  = Py.Ok Fixtures.wallet_b.
Proof. vm_compute. reflexivity. Qed.

(* ===================================================================== *)
(** * Further properties of the code *)
(* ===================================================================== *)

(** ** The RPC client: how a call ends *)

Section CallOutcome.
Import Py Effects Trace Obs.

Variable env : Env.
Variable c : RPCClient.t.

Lemma str_eqb_refl (s : str) : str_eqb s s = true.
Proof. unfold str_eqb. destruct (list_eq_dec N.eq_dec s s); congruence. Qed.

Lemma str_eqb_eq (a b : str) : str_eqb a b = true -> a = b.
Proof. unfold str_eqb. destruct (list_eq_dec N.eq_dec a b); congruence. Qed.


Lemma requests_of_count (method : str) (tr : list Event) :
  requests_of method tr = count (is_request method) tr.
Proof. reflexivity. Qed.


(** The attempts of the loop of [call]: between one and the budget, each on
    the node after the one before; the whole budget when the loop ends in an
    exception that is retried. *)
Lemma call_loop_attempts (method : str) (params : list value) (more : nat) :
  forall w,
    rpc_index w < List.length (RPCClient.nodes c) ->
    let '(r, w') := RPCClient.call_loop env c method params more w in
    exists k,
      1 <= k <= S more
      /\ requests_of method (trace w') = requests_of method (trace w) + k
      /\ visited (trace w')
         = visited (trace w)
           ++ map (fun j => (rpc_index w + j) mod List.length (RPCClient.nodes c))
                  (seq 0 k)
      /\ rpc_index w'
         = (rpc_index w + failures_of r k) mod List.length (RPCClient.nodes c)
      /\ gets w' = gets w
      /\ rr_pos w' = rr_pos w
      /\ (forall e, r = Raise e -> RPCClient.retryable e = true -> k = S more).
Proof using Type.
  set (N := List.length (RPCClient.nodes c)).
  induction more as [|more IH]; intros w Hw; rewrite call_loop_step;
    pose proof (perform_request_effect env c method params w) as Hp;
    destruct (RPCClient._perform_request env c method params w) as [[v|e] w1];
    destruct Hp as (Hi & Hrr & Hg & Ht);
    pose (wn := {| rpc_index := (rpc_index w1 + 1) mod N; rr_pos := rr_pos w1;
                   posts := posts w1; gets := gets w1;
                   trace := (trace w1 ++ [ELog ERROR "RPC error on %s: %s"])
                            ++ [ELog WARNING "Switching RPC to node %s"] |});
    assert (H1 : requests_of method (trace w1) = requests_of method (trace w) + 1)
      by (rewrite Ht, requests_of_app; unfold requests_of at 2; simpl;
          rewrite str_eqb_refl; reflexivity);
    assert (V1 : visited (trace w1) = visited (trace w) ++ [rpc_index w])
      by (rewrite Ht, visited_app; reflexivity);
    assert (Hq : requests_of method (trace wn) = requests_of method (trace w) + 1)
      by (unfold wn; simpl trace; rewrite !requests_of_app, H1; cbn; lia);
    assert (Hv : visited (trace wn) = visited (trace w) ++ [rpc_index w])
      by (unfold wn; simpl trace; rewrite !visited_app, V1; simpl;
          rewrite !app_nil_r; reflexivity);
    assert (Hwn : rpc_index wn = (rpc_index w + 1) mod N)
      by (simpl; rewrite Hi; reflexivity);
    assert (Hone : map (fun j => (rpc_index w + j) mod N) (seq 0 1) = [rpc_index w])
      by (simpl; rewrite Nat.add_0_r, Nat.mod_small by exact Hw; reflexivity);
    assert (Hsame : rpc_index w1 = (rpc_index w + 0) mod N)
      by (rewrite Nat.add_0_r, Nat.mod_small by exact Hw; exact Hi);
    cbv zeta; fold N; fold wn.
  - exists 1. rewrite Hone. split; [lia|]. split; [exact H1|].
    split; [exact V1|]. split; [exact Hsame|]. split; [exact Hg|].
    split; [exact Hrr|]. intros e. discriminate.
  - exists 1. rewrite Hone.
    split; [lia|]. split; [exact Hq|]. split; [exact Hv|].
    split; [exact Hwn|]. split; [exact Hg|].
    split; [exact Hrr|]. reflexivity.
  - exists 1. rewrite Hone. split; [lia|]. split; [exact H1|].
    split; [exact V1|]. split; [exact Hsame|]. split; [exact Hg|].
    split; [exact Hrr|]. intros e. discriminate.
  - destruct (RPCClient.retryable e) eqn:Hre.
    + assert (Hn : rpc_index wn < N)
        by (rewrite Hwn; apply Nat.mod_upper_bound; lia).
      specialize (IH wn Hn).
      destruct (RPCClient.call_loop env c method params more wn) as [r w'].
      destruct IH as (k & Hk & Hreq & Hvis & Hidx & Hg' & Hrr' & Hall).
      exists (S k). split; [lia|]. split; [rewrite Hreq, Hq; lia|]. split.
      { rewrite Hvis, Hv, <- app_assoc, <- Hone, Hwn.
        rewrite (round_robin_app N (rpc_index w) 1 k). reflexivity. }
      split.
      { rewrite Hidx, Hwn, Nat.Div0.add_mod_idemp_l. f_equal.
        destruct r; simpl; lia. }
      split; [rewrite Hg'; exact Hg|]. split; [rewrite Hrr'; exact Hrr|].
      intros e' He' Hr'. rewrite (Hall e' He' Hr'). reflexivity.
    + exists 1. rewrite Hone.
      split; [lia|]. split; [exact Hq|]. split; [exact Hv|].
      split; [exact Hwn|]. split; [exact Hg|].
      split; [exact Hrr|]. intros e' [= <-] Hr'. congruence.
Qed.

End CallOutcome.



(** X2.  An exception of an attempt that is not of the retried kind (a node
    entry without [url], a body that is not an object, a body with neither an
    error nor a [result]) ends the call at once: that one attempt is the only
    one, the exception comes out, and the client has still moved on to the
    next node. *)
Theorem call_other_exception_not_retried (env : Effects.Env) (c : RPCClient.t)
    (method : Py.str) (params : list Py.value) (w w1 : Effects.World) (e : Py.exn) :
  RPCClient._perform_request env c method params w = (Py.Raise e, w1) ->
  RPCClient.retryable e = false ->
  RPCClient.call env c method params w
  = (Py.Raise e,
     {| Effects.rpc_index :=
          (Effects.rpc_index w + 1) mod List.length (RPCClient.nodes c);
        Effects.rr_pos := Effects.rr_pos w;
        Effects.posts := Effects.posts w1;
        Effects.gets := Effects.gets w;
        Effects.trace :=
          Effects.trace w
          ++ [Effects.ERequest (Effects.rpc_index w) method params;
              Effects.ELog Effects.ERROR "RPC error on %s: %s";
              Effects.ELog Effects.WARNING "Switching RPC to node %s"] |}).
Proof.
  intros Hp Hre. unfold RPCClient.call. rewrite call_loop_step.
  pose proof (perform_request_effect env c method params w) as He.
  rewrite Hp in *. destruct He as (Hi & Hrr & Hg & Ht). cbv zeta.
  rewrite Hre, Hi, Hrr, Hg, Ht, <- !app_assoc.
  destruct (Z.to_nat (RPCClient.retry_attempts c) - 1); reflexivity.
Qed.

(** A node whose answer is a list, not an object. *)
Lemma call_other_exception_not_retried_witness :
  fst (RPCClient.call
         (Fixtures.scripted (fun _ => Effects.Body (Py.VList []))
                            (fun _ => Effects.Fail Py.RequestException))
         Fixtures.client3 (Py.lit "getrawmempool") [] Fixtures.w0)
  = Py.Raise (Py.AttributeError (Py.lit "get")).
Proof.
  erewrite (@call_other_exception_not_retried
              (Fixtures.scripted (fun _ => Effects.Body (Py.VList []))
                                 (fun _ => Effects.Fail Py.RequestException))
              Fixtures.client3 (Py.lit "getrawmempool") [] Fixtures.w0).
  - reflexivity.
  - vm_compute. reflexivity.
  - reflexivity.
Defined.

(** ** The mempool scanner: what a scan can return *)

Lemma lower_is_ascii (s : Py.str) : Spec.is_ascii s -> Spec.is_ascii (Py.lower s).
Proof.
  unfold Spec.is_ascii, Py.lower. intros H. apply Forall_map.
  eapply Forall_impl; [|exact H]. intros c Hc. simpl in Hc.
  destruct (lower_char_cases c) as [[Hr ->]|[_ ->]]; lia.
Qed.

Lemma lower_idempotent (s : Py.str) : Py.lower (Py.lower s) = Py.lower s.
Proof.
  unfold Py.lower. rewrite map_map. apply map_ext. intros c.
  destruct (lower_char_cases c) as [[Hr Hc]|[Hr Hc]]; rewrite Hc.
  - destruct (lower_char_cases (c + 32)) as [[Hr' _]|[_ Hc']]; [lia | exact Hc'].
  - exact Hc.
Qed.

Section ScanOutcome.
Import Py Effects Trace.

Variable env : Env.
Variable ms : MempoolScanner.t.
Variable tick : str.

(** One round of the loop of [contains_tick]. *)
Lemma scan_step (txid : value) (rest : list value) (w : World) :
  MempoolScanner.scan env ms tick (txid :: rest) w
  = match RPCClient.call env (MempoolScanner.rpc ms) (lit "getrawtransaction")
            [txid] w with
    | (Ok raw, w1) =>
        match MempoolScanner.tick_in_raw tick raw with
        | Ok true =>
            (Ok true,
             with_events w1 [ELog INFO "Tick %s already in mempool via %s"])
        | _ => MempoolScanner.scan env ms tick rest w1
        end
    | (Raise _, w1) => MempoolScanner.scan env ms tick rest w1
    end.
Proof using Type.
  simpl. unfold bind at 1. unfold try_except, bind at 1.
  destruct (RPCClient.call env (MempoolScanner.rpc ms) (lit "getrawtransaction")
              [txid] w) as [[raw|e] w1]; [|reflexivity].
  unfold bind, lift.
  destruct (MempoolScanner.tick_in_raw tick raw) as [[|]|e]; reflexivity.
Qed.

(** The loop never raises. *)
Lemma scan_total (items : list value) :
  forall w, exists b w', MempoolScanner.scan env ms tick items w = (Ok b, w').
Proof using Type.
  induction items as [|txid rest IH]; intros w.
  - exists false, w. reflexivity.
  - rewrite scan_step.
    destruct (RPCClient.call env (MempoolScanner.rpc ms) (lit "getrawtransaction")
                [txid] w) as [[raw|e] w1]; [|apply IH].
    destruct (MempoolScanner.tick_in_raw tick raw) as [[|]|e];
      [eexists; eexists; reflexivity | apply IH | apply IH].
Qed.


(** [contains_tick] after the mempool call. *)
Lemma contains_tick_unfold (w : World) :
  MempoolScanner.contains_tick env ms tick w
  = match RPCClient.call env (MempoolScanner.rpc ms) (lit "getrawmempool") [] w with
    | (Raise _, w1) =>
        (Ok false, with_events w1 [ELog WARNING "Mempool scan failed: %s"])
    | (Ok v, w1) =>
        match slice_value (MempoolScanner.max_scan ms) v with
        | Raise e => (Raise e, w1)
        | Ok head =>
            match iterate head with
            | Raise e => (Raise e, w1)
            | Ok items => MempoolScanner.scan env ms tick items w1
            end
        end
    end.
Proof using Type.
  unfold MempoolScanner.contains_tick. unfold bind at 1.
  unfold try_except, bind at 1.
  destruct (RPCClient.call env (MempoolScanner.rpc ms) (lit "getrawmempool") [] w)
    as [[v|e] w1]; [|reflexivity].
  unfold bind, lift, ret.
  destruct (slice_value (MempoolScanner.max_scan ms) v) as [head|e]; [|reflexivity].
  destruct (iterate head); reflexivity.
Qed.

End ScanOutcome.

(** X3.  How [contains_tick] ends, by the answer to [getrawmempool].  When
    the call raises, the scan fails open: it returns false with one warning
    and fetches nothing.  When the answer is a list (or a string), it returns
    a boolean and never raises, whatever the fetches of the single
    transactions do.  Any other answer (null, a number, a boolean, an object)
    cannot be sliced: the slice is outside every [try], so its exception
    comes out of the scan, and nothing is fetched. *)
Theorem contains_tick_outcomes (env : Effects.Env) (ms : MempoolScanner.t)
    (tick : Py.str) (w : Effects.World) :
  match RPCClient.call env (MempoolScanner.rpc ms) (Py.lit "getrawmempool") [] w with
  | (Py.Raise _, w1) =>
      MempoolScanner.contains_tick env ms tick w
      = (Py.Ok false,
         Trace.with_events w1
           [Effects.ELog Effects.WARNING "Mempool scan failed: %s"])
  | (Py.Ok (Py.VList _), _) | (Py.Ok (Py.VStr _), _) =>
      exists b w', MempoolScanner.contains_tick env ms tick w = (Py.Ok b, w')
  | (Py.Ok _, w1) =>
      exists e, MempoolScanner.contains_tick env ms tick w = (Py.Raise e, w1)
  end.
Proof.
  rewrite contains_tick_unfold.
  destruct (RPCClient.call env (MempoolScanner.rpc ms) (Py.lit "getrawmempool") [] w)
    as [[v|e] w1]; [|reflexivity].
  destruct v; simpl; try (eexists; reflexivity); apply scan_total.
Qed.



(** X5.  The test of the scanner folds the case of the tick only.  For a
    tick of ASCII characters it never fails on the tick, and lower-casing the
    raw hex changes nothing: the result is whether the bytes the hex denotes,
    as they are, hold the bytes of the lower-cased tick, and it is the same
    for the tick in any case. *)
Theorem tick_in_raw_folds_tick_only (tick raw : Py.str) :
  Spec.is_ascii tick ->
  MempoolScanner.tick_in_raw tick (Py.VStr raw)
  = match Py.fromhex raw with
    | Some b => Py.Ok (Py.contains (map Py.byte_of_N (Py.lower tick)) b)
    | None => Py.Raise Py.ValueError
    end
  /\ MempoolScanner.tick_in_raw (Py.lower tick) (Py.VStr raw)
     = MempoolScanner.tick_in_raw tick (Py.VStr raw).
Proof.
  intros Hascii.
  assert (Hone : forall t, Spec.is_ascii t ->
            MempoolScanner.tick_in_raw t (Py.VStr raw)
            = match Py.fromhex raw with
              | Some b => Py.Ok (Py.contains (map Py.byte_of_N (Py.lower t)) b)
              | None => Py.Raise Py.ValueError
              end).
  { intros t Ht. unfold MempoolScanner.tick_in_raw.
    rewrite (encode_is_ascii (lower_is_ascii Ht)), fromhex_lower. reflexivity. }
  split; [apply Hone; exact Hascii|].
  rewrite (Hone _ (lower_is_ascii Hascii)), (Hone _ Hascii), lower_idempotent.
  reflexivity.
Qed.

(** The tick ZERO against the hex of the bytes of ["tick":"ZERO"]. *)
Lemma tick_in_raw_folds_tick_only_witness :
  MempoolScanner.tick_in_raw (Py.lit "zero")
    (Py.VStr (Py.lit "227469636b223a225a45524f22"))
  = MempoolScanner.tick_in_raw (Py.lit "ZERO")
      (Py.VStr (Py.lit "227469636b223a225a45524f22")).
Proof.
  apply (proj2 (@tick_in_raw_folds_tick_only (Py.lit "ZERO")
                  (Py.lit "227469636b223a225a45524f22")
                  ltac:(repeat constructor))).
Defined.

(** ** The ticker watcher *)

(** X6.  [is_tick_live] fails open.  It never raises and never talks to a
    node; it makes at most one GET; without a configured url it answers true
    and does nothing; and it answers false only when the API was reached and
    answered an object whose [live] entry is falsy.  An unreachable API, a
    body that is not an object and an object without [live] all give true. *)
Theorem is_tick_live_fails_open (env : Effects.Env) (tw : ExternalTickerWatcher.t)
    (tick : Py.str) (w : Effects.World) :
  exists b w',
    ExternalTickerWatcher.is_tick_live env tw tick w = (Py.Ok b, w')
    /\ Effects.posts w' = Effects.posts w
    /\ Effects.rpc_index w' = Effects.rpc_index w
    /\ Effects.gets w' <= S (Effects.gets w)
    /\ Trace.visited (Effects.trace w') = Trace.visited (Effects.trace w)
    /\ (Effects.opt_truthy
          (Effects.cfg_get (ExternalTickerWatcher.api_cfg tw) (Py.lit "url")) = false ->
        b = true /\ w' = w)
    /\ (b = false ->
        exists url kv v,
          Effects.cfg_get (ExternalTickerWatcher.api_cfg tw) (Py.lit "url") = Some url
          /\ Effects.http_get env (Effects.gets w) url [(Py.lit "tick", tick)]
             = Effects.Body (Py.VDict kv)
          /\ Py.assoc (Py.lit "live") kv = Some v
          /\ Py.truthy v = false
          /\ w' = Trace.after_get w url [(Py.lit "tick", tick)]).
Proof.
  unfold ExternalTickerWatcher.is_tick_live.
  destruct (Effects.cfg_get (ExternalTickerWatcher.api_cfg tw) (Py.lit "url"))
    as [[|ch u]|].
  - exists true, w. repeat split; auto. discriminate.
  - unfold Effects.try_except, Effects.bind, Effects.get, Effects.raise,
      Effects.ret, Effects.lift, Effects.log, Effects.emit. simpl.
    destruct (Effects.http_get env (Effects.gets w) (ch :: u) [(Py.lit "tick", tick)])
      as [e|data] eqn:Hget; simpl.
    + eexists. eexists. split; [reflexivity|]. simpl.
      split; [reflexivity|]. split; [reflexivity|]. split; [lia|]. split.
      { rewrite <- app_assoc, visited_app. simpl. apply app_nil_r. }
      split; [discriminate | discriminate].
    + destruct data as [| | | | | |kv]; simpl;
        try (eexists; eexists; split; [reflexivity|]; simpl;
             split; [reflexivity|]; split; [reflexivity|]; split; [lia|];
             split; [rewrite <- app_assoc, visited_app; simpl; apply app_nil_r|];
             split; discriminate).
      destruct (Py.assoc (Py.lit "live") kv) as [v|] eqn:Hlive; simpl.
      * eexists. eexists. split; [reflexivity|]. simpl.
        split; [reflexivity|]. split; [reflexivity|]. split; [lia|]. split.
        { rewrite visited_app. simpl. apply app_nil_r. }
        split; [discriminate|].
        intros Hb. exists (ch :: u), kv, v. repeat split; auto.
      * eexists. eexists. split; [reflexivity|]. simpl.
        split; [reflexivity|]. split; [reflexivity|]. split; [lia|]. split.
        { rewrite visited_app. simpl. apply app_nil_r. }
        split; discriminate.
  - exists true, w. repeat split; auto. discriminate.
Qed.

(** ** The mint engine: the signed transaction *)

(** X7.  An attempt in which everything answers: when the transaction is
    built, [signrawtransaction] answers an object with a [hex] entry and
    [sendrawtransaction] answers, the value under [hex] (not the unsigned raw
    hex) is the one parameter of the broadcast, the attempt returns what the
    broadcast returned after the line "Broadcasted", and the retry loop
    returns it without another attempt. *)
Theorem signed_hex_is_broadcast (env : Effects.Env) (eng : MintEngine.t)
    (utxo : UTXO.t) (dest : Py.str) (json : list (Py.str * Py.str)) (fee : float)
    (raw_hex : Py.str) (kv : list (Py.str * Py.value)) (signed_hex txid : Py.value)
    (w w1 w2 : Effects.World) (more : nat) :
  MintEngine._build_transaction env utxo dest (Py.json_dumps_compact json) fee
  = Py.Ok raw_hex ->
  RPCClient.call env (MintEngine.rpc eng) (Py.lit "signrawtransaction")
    [Py.VStr raw_hex] w = (Py.Ok (Py.VDict kv), w1) ->
  Py.assoc (Py.lit "hex") kv = Some signed_hex ->
  RPCClient.call env (MintEngine.rpc eng) (Py.lit "sendrawtransaction")
    [signed_hex] w1 = (Py.Ok txid, w2) ->
  MintEngine._execute env eng utxo dest json fee w
  = (Py.Ok txid, Trace.with_events w2 [Trace.broadcasted])
  /\ MintEngine.attempt_loop env eng utxo dest json fee more w
     = (Py.Ok txid, Trace.with_events w2 [Trace.broadcasted]).
Proof.
  intros Hbuild Hsign Hkey Hsend.
  assert (Hexec : MintEngine._execute env eng utxo dest json fee w
                  = (Py.Ok txid, Trace.with_events w2 [Trace.broadcasted])).
  { unfold MintEngine._execute, Effects.bind, Effects.lift.
    rewrite Hbuild, Hsign. simpl. rewrite Hkey, Hsend. reflexivity. }
  split; [exact Hexec|].
  destruct more; simpl;
    unfold Effects.try_except, Effects.bind, MintEngine._respect_rate_limit,
      Effects.ret;
    rewrite Hexec; reflexivity.
Qed.

(** Nodes that sign with a [hex] entry and accept the broadcast. *)
Lemma signed_hex_is_broadcast_witness :
  MintEngine.attempt_loop Cases.env_signs (Fixtures.engine_fixed 0.5 3)
    (Fixtures.utxo_of 1) Fixtures.dest0
    (Inscription.mint_payload (Py.lit "ZERO") 100) 0.5 2 Fixtures.w0
  = (Py.Ok (Py.VStr (Py.lit "beef")),
     Trace.with_events
       (snd (RPCClient.call Cases.env_signs Fixtures.client3
               (Py.lit "sendrawtransaction") [Py.VStr (Py.lit "cafe")]
               (snd (RPCClient.call Cases.env_signs Fixtures.client3
                       (Py.lit "signrawtransaction") [Py.VStr (Py.lit "0100")]
                       Fixtures.w0))))
       [Trace.broadcasted]).
Proof.
  refine (proj2 (@signed_hex_is_broadcast Cases.env_signs
                   (Fixtures.engine_fixed 0.5 3) (Fixtures.utxo_of 1) Fixtures.dest0
                   (Inscription.mint_payload (Py.lit "ZERO") 100) 0.5
                   (Py.lit "0100") [(Py.lit "hex", Py.VStr (Py.lit "cafe")); (Py.lit "complete", Py.VBool true)]
                   (Py.VStr (Py.lit "cafe")) (Py.VStr (Py.lit "beef"))
                   Fixtures.w0 _ _ 2 _ _ _ _)).
  - vm_compute. reflexivity.
  - vm_compute. reflexivity.
  - reflexivity.
  - vm_compute. reflexivity.
Defined.

(** ** The wallet selector without the "richest" strategy *)

Section Selector.
Import Py Effects Trace Obs.

Variable env : Env.

Lemma map_nth_seq (A : Type) (l : list A) (d : A) :
  map (fun j => nth j l d) (seq 0 (List.length l)) = l.
Proof.
  induction l as [|x r IH]; [reflexivity|].
  simpl. f_equal. rewrite <- seq_shift, map_map. exact IH.
Qed.

(** [k] picks of the round robin, from any position. *)
Lemma picks_round_robin (sel : WalletSelector.t) (m : MultiWallet.t)
    (min_conf : Z) (d : Wallet.t) (k : nat) :
  WalletSelector.multi sel = Some m ->
  str_eqb (WalletSelector.strategy sel) (lit "richest") = false ->
  forall w,
    rr_pos w < List.length (MultiWallet.wallets m) ->
    picks env sel min_conf k w
    = (Ok (map (fun j => nth ((rr_pos w + j) mod List.length (MultiWallet.wallets m))
                             (MultiWallet.wallets m) d)
               (seq 0 k)),
       {| rpc_index := rpc_index w;
          rr_pos := (rr_pos w + k) mod List.length (MultiWallet.wallets m);
          posts := posts w; gets := gets w; trace := trace w |}).
Proof using Type.
  intros Hm Hs. set (n := List.length (MultiWallet.wallets m)).
  induction k as [|k IH]; intros w Hw.
  - simpl. unfold ret. rewrite Nat.add_0_r, Nat.mod_small by exact Hw.
    destruct w; reflexivity.
  - simpl. unfold bind at 1. unfold WalletSelector.pick. rewrite Hm, Hs.
    unfold MultiWallet.next_wallet, bind at 1. unfold get_rr. fold n.
    assert (Hlt : rr_pos w mod n < n) by (apply Nat.mod_upper_bound; lia).
    destruct (nth_error (MultiWallet.wallets m) (rr_pos w mod n)) as [wl|] eqn:Hnth.
    + unfold bind at 1. unfold set_rr at 1. cbv beta iota. unfold ret at 1.
      unfold bind at 1.
      match goal with
      | |- context [picks env sel min_conf k ?w1] =>
          rewrite (IH w1) by (simpl; apply Nat.mod_upper_bound; lia)
      end.
      unfold ret. simpl rr_pos. simpl rpc_index. simpl posts. simpl gets.
      simpl trace. f_equal.
      * f_equal. f_equal.
        -- rewrite Nat.add_0_r.
           apply (nth_error_nth _ _ d) in Hnth. symmetry. exact Hnth.
        -- rewrite <- seq_shift, map_map. apply map_ext. intros j.
           rewrite Nat.Div0.add_mod_idemp_l. f_equal. f_equal. lia.
      * f_equal. rewrite Nat.Div0.add_mod_idemp_l. f_equal. lia.
    + apply nth_error_None in Hnth. fold n in Hnth. lia.
Qed.

End Selector.

(** X8.  With several wallets and any strategy other than "richest", the
    picks go round the wallets in their order: from the position the
    constructor sets, [k] picks return the wallets [0, 1, ..., k-1] modulo
    their number; as many picks as there are wallets return every wallet
    once, in the configured order, and leave the selector where it started.
    A pick of this kind touches nothing but the position of the cycle. *)
Theorem pick_round_robin (env : Effects.Env) (sel : WalletSelector.t)
    (m : MultiWallet.t) (min_conf : Z) (d : Wallet.t) (k : nat) (w : Effects.World) :
  WalletSelector.multi sel = Some m ->
  Py.str_eqb (WalletSelector.strategy sel) (Py.lit "richest") = false ->
  MultiWallet.wallets m <> [] ->
  Effects.rr_pos w = 0 ->
  let n := List.length (MultiWallet.wallets m) in
  Obs.picks env sel min_conf k w
  = (Py.Ok (map (fun j => nth (j mod n) (MultiWallet.wallets m) d) (seq 0 k)),
     {| Effects.rpc_index := Effects.rpc_index w;
        Effects.rr_pos := k mod n;
        Effects.posts := Effects.posts w; Effects.gets := Effects.gets w;
        Effects.trace := Effects.trace w |})
  /\ Obs.picks env sel min_conf n w = (Py.Ok (MultiWallet.wallets m), w).
Proof.
  intros Hm Hs Hne H0 n.
  assert (Hn : n <> 0).
  { unfold n. destruct (MultiWallet.wallets m); [contradiction | discriminate]. }
  assert (Hw : Effects.rr_pos w < n) by lia.
  split.
  - rewrite (@picks_round_robin env sel m min_conf d k Hm Hs w Hw).
    rewrite H0. reflexivity.
  - rewrite (@picks_round_robin env sel m min_conf d n Hm Hs w Hw).
    rewrite H0. fold n. simpl Nat.add.
    rewrite Nat.Div0.mod_same. f_equal.
    + f_equal. etransitivity; [|apply (map_nth_seq (MultiWallet.wallets m) d)].
      fold n. apply map_ext_in. intros j Hj. apply in_seq in Hj.
      rewrite Nat.mod_small by lia. reflexivity.
    + destruct w; simpl in *. subst. reflexivity.
Qed.

(** Two wallets, the default strategy, three picks. *)
Lemma pick_round_robin_witness :
  fst (Obs.picks Fixtures.env_balances Cases.selector_round_robin 1 3 Fixtures.w0)
  = Py.Ok [Fixtures.wallet_a; Fixtures.wallet_b; Fixtures.wallet_a].
Proof.
  rewrite (proj1 (@pick_round_robin Fixtures.env_balances Cases.selector_round_robin
                    {| MultiWallet.wallets := [Fixtures.wallet_a; Fixtures.wallet_b] |}
                    1 Fixtures.wallet_a 3 Fixtures.w0
                    eq_refl eq_refl
                    ltac:(discriminate) eq_refl)).
  reflexivity.
Defined.

(** X9.  With one wallet the selector builds no [MultiWallet], and every
    pick returns that wallet, whatever the strategy ("richest" included),
    without touching anything.  With no wallet at all the selector is built
    all the same, and every pick raises [IndexError]. *)
Theorem pick_without_multiwallet (env : Effects.Env) (strategy : Py.str)
    (min_conf : Z) (w w' : Effects.World) :
  (forall wl,
      exists sel,
        WalletSelector.init [wl] strategy w = (Py.Ok sel, w)
        /\ WalletSelector.multi sel = None
        /\ WalletSelector.pick env sel min_conf w' = (Py.Ok wl, w'))
  /\ (exists sel,
        WalletSelector.init [] strategy w = (Py.Ok sel, w)
        /\ WalletSelector.pick env sel min_conf w' = (Py.Raise Py.IndexError, w')).
Proof.
  split.
  - intros wl. eexists. split; [reflexivity|]. split; reflexivity.
  - eexists. split; reflexivity.
Qed.

(** ** main.py: the mint cycle *)

Section Cycle.
Import Py Effects Trace.

Variable env : Env.
Variable engine : MintEngine.t.
Variable selector : WalletSelector.t.
Variable min_conf : Z.

(** The pick of this selector cannot raise. *)
Hypothesis pick_total :
  forall w, exists wl w', WalletSelector.pick env selector min_conf w = (Ok wl, w').

Lemma mint_once_total (target : MintTarget.t) :
  forall w, exists w', Main.mint_once env engine selector target min_conf w = (Ok tt, w').
Proof using pick_total.
  intros w. unfold Main.mint_once. unfold bind at 1.
  destruct (pick_total w) as (wl & w1 & ->).
  unfold bind at 1. unfold try_except at 1. unfold bind at 1.
  destruct (Wallet.select_largest_utxo env wl min_conf w1) as [[u|e] w2].
  - unfold ret at 1. unfold try_except, bind.
    destruct (MintEngine.mint env engine u (MintTarget.tick target)
                (MintTarget.amount target) (Wallet.address wl) w2) as [[v|e] w3];
      eexists; reflexivity.
  - unfold bind, log, emit, ret. simpl. eexists. reflexivity.
Qed.

Lemma times_total (body : M unit) (n : nat) :
  (forall w, exists w', body w = (Ok tt, w')) ->
  forall w, exists w', Main.times n body w = (Ok tt, w').
Proof using Type.
  intros Hb. induction n as [|n IH]; intros w.
  - eexists. reflexivity.
  - simpl. unfold bind. destruct (Hb w) as (w1 & ->). apply IH.
Qed.

Lemma run_mint_cycle_total (targets : list MintTarget.t) :
  forall w,
    exists w', Main.run_mint_cycle env engine selector targets min_conf w = (Ok tt, w').
Proof using pick_total.
  induction targets as [|t rest IH]; intros w.
  - eexists. reflexivity.
  - simpl. unfold bind.
    destruct (times_total (Main.mint_once env engine selector t min_conf)
                (Z.to_nat (MintTarget.batch t)) (mint_once_total t) w)
      as (w1 & ->).
    apply IH.
Qed.

(** A target whose batch is zero or less is passed over. *)
Lemma times_nothing (body : M unit) (b : Z) (w : World) :
  (b <= 0)%Z -> Main.times (Z.to_nat b) body w = (Ok tt, w).
Proof using Type.
  intros H. replace (Z.to_nat b) with 0 by lia. reflexivity.
Qed.

End Cycle.

(** X10.  A mint cycle runs to its end whatever the nodes, the external
    APIs and the transaction library do, as long as the wallet can be picked:
    with a single wallet, or with several wallets and a strategy other than
    "richest", [run_mint_cycle] returns normally for every list of targets.
    A failed UTXO selection and a failed mint are logged and the cycle goes
    on. *)
Theorem run_mint_cycle_never_raises (env : Effects.Env) (engine : MintEngine.t)
    (selector : WalletSelector.t) (targets : list MintTarget.t) (min_conf : Z)
    (w : Effects.World) :
  (WalletSelector.multi selector = None /\ WalletSelector.wallets selector <> [])
  \/ (exists m,
        WalletSelector.multi selector = Some m
        /\ MultiWallet.wallets m <> []
        /\ Py.str_eqb (WalletSelector.strategy selector) (Py.lit "richest") = false) ->
  exists w',
    Main.run_mint_cycle env engine selector targets min_conf w = (Py.Ok tt, w').
Proof.
  intros Hsel. apply run_mint_cycle_total. intros w0.
  unfold WalletSelector.pick.
  destruct Hsel as [[Hm Hne]|(m & Hm & Hne & Hs)]; rewrite Hm.
  - destruct (WalletSelector.wallets selector) as [|wl r]; [contradiction|].
    eexists. eexists. reflexivity.
  - rewrite Hs. unfold MultiWallet.next_wallet, Effects.bind, Effects.get_rr.
    destruct (nth_error (MultiWallet.wallets m)
                (Effects.rr_pos w0 mod List.length (MultiWallet.wallets m)))
      as [wl|] eqn:Hnth.
    + eexists. eexists. reflexivity.
    + apply nth_error_None in Hnth.
      assert (Effects.rr_pos w0 mod List.length (MultiWallet.wallets m)
              < List.length (MultiWallet.wallets m)).
      { apply Nat.mod_upper_bound. destruct (MultiWallet.wallets m);
          [contradiction | discriminate]. }
      lia.
Qed.

(** Two wallets in turn, every node down: both rounds are logged and the
    cycle ends normally. *)
Lemma run_mint_cycle_never_raises_witness :
  exists w',
    Main.run_mint_cycle Fixtures.env_down (Fixtures.engine_fixed 0.5 3)
      Cases.selector_round_robin
      [{| MintTarget.tick := Py.lit "ZERO"; MintTarget.amount := 100;
          MintTarget.batch := 2 |}] 1 Fixtures.w0
    = (Py.Ok tt, w').
Proof.
  apply run_mint_cycle_never_raises. right.
  exists {| MultiWallet.wallets := [Fixtures.wallet_a; Fixtures.wallet_b] |}.
  split; [reflexivity|]. split; [discriminate | reflexivity].
Defined.

(** X11.  With several wallets and the strategy "richest" the cycle does not
    get as far as a mint: targets whose batch is zero or less are passed
    over, and at the first target with a batch of one or more the pick raises
    [AttributeError], which no handler of the cycle catches; the cycle ends
    there, having done nothing. *)
Theorem run_mint_cycle_richest_aborts (env : Effects.Env) (engine : MintEngine.t)
    (selector : WalletSelector.t) (m : MultiWallet.t)
    (skipped rest : list MintTarget.t) (target : MintTarget.t) (min_conf : Z)
    (w : Effects.World) :
  WalletSelector.multi selector = Some m ->
  WalletSelector.strategy selector = Py.lit "richest" ->
  Forall (fun t => (MintTarget.batch t <= 0)%Z) skipped ->
  (1 <= MintTarget.batch target)%Z ->
  Main.run_mint_cycle env engine selector (skipped ++ target :: rest) min_conf w
  = (Py.Raise (Py.AttributeError (Py.lit "richest")), w).
Proof.
  intros Hm Hs Hskip Hb.
  induction Hskip as [|t ts Ht _ IH]; simpl.
  - unfold Effects.bind at 1.
    destruct (Z.to_nat (MintTarget.batch target)) as [|n] eqn:Hn; [lia|].
    simpl. unfold Effects.bind at 1. unfold Main.mint_once.
    unfold Effects.bind at 1. unfold WalletSelector.pick. rewrite Hm, Hs.
    reflexivity.
  - unfold Effects.bind at 1. rewrite times_nothing by exact Ht. exact IH.
Qed.

Lemma run_mint_cycle_richest_aborts_witness :
  Main.run_mint_cycle Fixtures.env_balances (Fixtures.engine_fixed 0.5 3)
    Fixtures.selector_richest
    ([{| MintTarget.tick := Py.lit "SKIP"; MintTarget.amount := 1;
         MintTarget.batch := 0 |}]
     ++ {| MintTarget.tick := Py.lit "ZERO"; MintTarget.amount := 100;
           MintTarget.batch := 1 |} :: [])
    1 Fixtures.w0
  = (Py.Raise (Py.AttributeError (Py.lit "richest")), Fixtures.w0).
Proof.
  apply (@run_mint_cycle_richest_aborts Fixtures.env_balances
           (Fixtures.engine_fixed 0.5 3) Fixtures.selector_richest
           {| MultiWallet.wallets := [Fixtures.wallet_a; Fixtures.wallet_b] |}).
  - reflexivity.
  - reflexivity.
  - repeat constructor. simpl. lia.
  - simpl. lia.
Defined.

(** ** core/config.py: the merge of the local overrides *)

Lemma str_eqb_spec (a b : Py.str) : reflect (a = b) (Py.str_eqb a b).
Proof.
  unfold Py.str_eqb. destruct (list_eq_dec N.eq_dec a b); constructor; assumption.
Qed.

Section Merge.
Import Py Config.

(** One round of the loop, on an item. *)
Let step (result : list (str * value)) (kv : str * value) : list (str * value) :=
  merge_item result (fst kv) (snd kv).

Lemma merge_value_dict (b o : list (str * value)) :
  merge_value (VDict b) (VDict o) = VDict (fold_left step o b).
Proof using Type.
  revert b. induction o as [|[k v] o IH]; intros b.
  - reflexivity.
  - specialize (IH (step b (k, v))). simpl in IH. simpl.
    injection IH as IH. f_equal. rewrite <- IH. clear IH.
    unfold step, merge_item, _deep_merge. simpl fst. simpl snd.
    destruct (assoc k b) as [[| | | | | |sub]|]; try reflexivity.
    destruct v; try reflexivity.
Qed.

(** [_deep_merge] is the loop over the items of the override, from the
    base. *)
Lemma deep_merge_fold (b o : list (str * value)) :
  _deep_merge b o = fold_left step o b.
Proof using Type. unfold _deep_merge. rewrite merge_value_dict. reflexivity. Qed.

Lemma assoc_dict_set (k k' : str) (v : value) (d : list (str * value)) :
  assoc k (dict_set k' v d) = if str_eqb k k' then Some v else assoc k d.
Proof using Type.
  induction d as [|[k0 x] d IH]; simpl.
  - destruct (str_eqb k k'); reflexivity.
  - destruct (str_eqb_spec k' k0) as [->|Hne]; simpl.
    + destruct (str_eqb_spec k k0); reflexivity.
    + destruct (str_eqb_spec k k0) as [->|Hne'].
      * destruct (str_eqb_spec k0 k'); [congruence | reflexivity].
      * exact IH.
Qed.

Lemma assoc_step (k : str) (b : list (str * value)) (kv : str * value) :
  assoc k (step b kv)
  = if str_eqb k (fst kv)
    then match assoc k b, snd kv with
         | Some (VDict sub), VDict o => Some (VDict (_deep_merge sub o))
         | _, _ => Some (snd kv)
         end
    else assoc k b.
Proof using Type.
  destruct kv as [k1 v1]. unfold step, merge_item. simpl fst. simpl snd.
  unfold str_eqb. destruct (list_eq_dec N.eq_dec k k1) as [->|Hne].
  - destruct (assoc k1 b) as [[| | | | | |sub]|];
      try (rewrite assoc_dict_set, str_eqb_refl; reflexivity).
    destruct v1; rewrite assoc_dict_set, str_eqb_refl; reflexivity.
  - assert (Hk : str_eqb k k1 = false).
    { unfold str_eqb. destruct (list_eq_dec N.eq_dec k k1); congruence. }
    destruct (assoc k1 b) as [[| | | | | |sub]|];
      try (rewrite assoc_dict_set, Hk; reflexivity).
    destruct v1; rewrite assoc_dict_set, Hk; reflexivity.
Qed.

Lemma assoc_absent (A : Type) (k : str) (d : list (str * A)) :
  ~ In k (map fst d) -> assoc k d = None.
Proof using Type.
  induction d as [|[k0 x] d IH]; simpl; intros H; [reflexivity|].
  unfold str_eqb. destruct (list_eq_dec N.eq_dec k k0) as [->|_].
  - exfalso. apply H. left. reflexivity.
  - apply IH. intros Hin. apply H. right. exact Hin.
Qed.

Lemma assoc_fold (k : str) (o : list (str * value)) :
  NoDup (map fst o) ->
  forall b,
    assoc k (fold_left step o b)
    = match assoc k o with
      | None => assoc k b
      | Some v =>
          match assoc k b, v with
          | Some (VDict sub), VDict ov => Some (VDict (_deep_merge sub ov))
          | _, _ => Some v
          end
      end.
Proof using Type.
  induction o as [|[k1 v1] o IH]; intros Hnd b.
  - reflexivity.
  - simpl in Hnd. inversion Hnd as [|? ? Hnotin Hnd']; subst.
    simpl fold_left. rewrite (IH Hnd'). rewrite assoc_step. simpl fst. simpl snd.
    simpl assoc. unfold str_eqb.
    destruct (list_eq_dec N.eq_dec k k1) as [->|Hne].
    + rewrite (assoc_absent _ _ Hnotin). reflexivity.
    + reflexivity.
Qed.

Lemma keys_dict_set (k : str) (v : value) (d : list (str * value)) :
  map fst (dict_set k v d)
  = if existsb (str_eqb k) (map fst d) then map fst d else map fst d ++ [k].
Proof using Type.
  induction d as [|[k0 x] d IH]; simpl.
  - reflexivity.
  - destruct (str_eqb k k0) eqn:Hk; simpl.
    + apply str_eqb_eq in Hk. subst. reflexivity.
    + rewrite IH. destruct (existsb (str_eqb k) (map fst d)); reflexivity.
Qed.

Lemma keys_step (b : list (str * value)) (kv : str * value) :
  map fst (step b kv)
  = if existsb (str_eqb (fst kv)) (map fst b) then map fst b
    else map fst b ++ [fst kv].
Proof using Type.
  destruct kv as [k v]. unfold step, merge_item. simpl fst. simpl snd.
  destruct (assoc k b) as [[| | | | | |sub]|]; try apply keys_dict_set.
  destruct v; apply keys_dict_set.
Qed.

Lemma keys_fold (o : list (str * value)) :
  NoDup (map fst o) ->
  forall b,
    map fst (fold_left step o b)
    = map fst b
      ++ filter (fun k => negb (existsb (str_eqb k) (map fst b))) (map fst o).
Proof using Type.
  induction o as [|[k1 v1] o IH]; intros Hnd b.
  - simpl. rewrite app_nil_r. reflexivity.
  - simpl in Hnd. inversion Hnd as [|? ? Hnotin Hnd']; subst.
    simpl fold_left. rewrite (IH Hnd'), keys_step. simpl fst. simpl map. simpl filter.
    destruct (existsb (str_eqb k1) (map fst b)) eqn:Hin; simpl negb; cbv iota.
    + reflexivity.
    + rewrite <- app_assoc. simpl. f_equal. f_equal.
      apply filter_ext_in. intros k Hk.
      rewrite existsb_app. simpl.
      assert (Hne : str_eqb k k1 = false).
      { unfold str_eqb. destruct (list_eq_dec N.eq_dec k k1); [|reflexivity].
        subst. contradiction. }
      rewrite Hne, !orb_false_r. reflexivity.
Qed.

End Merge.

(** X12.  What a merged configuration holds.  For an override with distinct
    keys, as a mapping has them: a key the override does not have keeps the
    value of the base; a key it has takes the override's value, unless both
    values are mappings, which are merged in the same way; a key of neither
    is absent. *)
Theorem deep_merge_lookup (base override : list (Py.str * Py.value)) (k : Py.str) :
  NoDup (map fst override) ->
  Py.assoc k (Config._deep_merge base override)
  = match Py.assoc k override with
    | None => Py.assoc k base
    | Some v =>
        match Py.assoc k base, v with
        | Some (Py.VDict sub), Py.VDict o => Some (Py.VDict (Config._deep_merge sub o))
        | _, _ => Some v
        end
    end.
Proof.
  intros Hnd. rewrite deep_merge_fold. apply assoc_fold. exact Hnd.
Qed.

(** The local override of the timeout, in the network section. *)
Lemma deep_merge_lookup_witness :
  Py.assoc (Py.lit "network") (Config._deep_merge Cases.cfg_base Cases.cfg_local)
  = Some (Py.VDict [(Py.lit "timeout", Py.VInt 30);
                    (Py.lit "retry_wait", Py.VInt 1)]).
Proof.
  rewrite (@deep_merge_lookup Cases.cfg_base Cases.cfg_local (Py.lit "network")).
  - reflexivity.
  - repeat constructor; simpl; intuition discriminate.
Defined.

(** X13.  The keys of a merged configuration, in order: those of the base,
    in the order of the base, then the keys the override adds, in the order
    of the override.  So the merge drops no key of the base, and keeps the
    keys distinct when they were. *)
Theorem deep_merge_keys (base override : list (Py.str * Py.value)) :
  NoDup (map fst override) ->
  map fst (Config._deep_merge base override)
  = map fst base
    ++ filter (fun k => negb (existsb (Py.str_eqb k) (map fst base)))
              (map fst override)
  /\ (NoDup (map fst base) -> NoDup (map fst (Config._deep_merge base override))).
Proof.
  intros Hnd. rewrite deep_merge_fold, keys_fold by exact Hnd.
  split; [reflexivity|]. intros Hb.
  apply NoDup_app; [exact Hb | apply NoDup_filter; exact Hnd |].
  intros k Hin Hf. apply filter_In in Hf. destruct Hf as [_ Hf].
  apply negb_true_iff in Hf.
  assert (Ht : existsb (Py.str_eqb k) (map fst base) = true).
  { apply existsb_exists. exists k. split; [exact Hin|].
    unfold Py.str_eqb. destruct (list_eq_dec N.eq_dec k k); congruence. }
  congruence.
Qed.

(** The section the override adds goes last. *)
Lemma deep_merge_keys_witness :
  map fst (Config._deep_merge Cases.cfg_base Cases.cfg_local)
  = [Py.lit "network"; Py.lit "bot"; Py.lit "secrets"].
Proof.
  rewrite (proj1 (@deep_merge_keys Cases.cfg_base Cases.cfg_local
                    ltac:(repeat constructor; simpl; intuition discriminate))).
  reflexivity.
Defined.

(** ** core/wallet.py: listing and choosing UTXOs *)

Lemma SFltb_trans (x y z : spec_float) :
  SFltb x y = true -> SFltb y z = true -> SFltb x z = true.
Proof.
  unfold SFltb, SFcompare.
  destruct x as [sx|sx| |sx mx ex], y as [sy|sy| |sy my ey], z as [sz|sz| |sz mz ez];
    try discriminate;
    repeat match goal with s : bool |- _ => destruct s end;
    try discriminate; try reflexivity;
    destruct (Z.compare_spec ex ey), (Z.compare_spec ey ez), (Z.compare_spec ex ez);
    try discriminate; try reflexivity; try lia; subst;
    fold (Pos.compare mx my); fold (Pos.compare my mz); fold (Pos.compare mx mz);
    destruct (Pos.compare_spec mx my), (Pos.compare_spec my mz),
             (Pos.compare_spec mx mz);
    simpl; try discriminate; try reflexivity; try lia.
Qed.

Lemma SFltb_irrefl (x : spec_float) : SFltb x x = false.
Proof.
  unfold SFltb, SFcompare.
  destruct x as [s|s| |s m e]; try destruct s; try reflexivity;
    rewrite Z.compare_refl; fold (Pos.compare m m); rewrite Pos.compare_refl;
    reflexivity.
Qed.

(** [<] on floats is transitive and irreflexive, NaN included. *)
Lemma float_ltb_trans (x y z : float) :
  (x <? y)%float = true -> (y <? z)%float = true -> (x <? z)%float = true.
Proof. rewrite !ltb_spec. apply SFltb_trans. Qed.

Lemma float_ltb_irrefl (x : float) : (x <? x)%float = false.
Proof. rewrite ltb_spec. apply SFltb_irrefl. Qed.

Section MaxBy.

Variable A : Type.
Variable key : A -> float.

Let pick (best y : A) : A := if (key best <? key y)%float then y else best.

Lemma fold_max (l : list A) :
  forall (x : A) (Q : A -> Prop),
    (forall s, Q s -> (key x <? key s)%float = false) ->
    In (fold_left pick l x) (x :: l)
    /\ forall s, Q s \/ In s (x :: l) ->
         (key (fold_left pick l x) <? key s)%float = false.
Proof using Type.
  induction l as [|y l IH]; intros x Q HQ.
  - simpl. split; [left; reflexivity|].
    intros s [Hs|[<-|[]]]; [apply HQ; exact Hs | apply float_ltb_irrefl].
  - simpl fold_left.
    destruct (IH (pick x y) (fun s => Q s \/ s = x \/ s = y)) as [Hin Hmax].
    + intros s Hs. unfold pick.
      destruct (key x <? key y)%float eqn:Hxy.
      * destruct (key y <? key s)%float eqn:Hys; [|reflexivity].
        pose proof (float_ltb_trans Hxy Hys) as Hxs.
        destruct Hs as [Hs | [-> | ->]].
        -- rewrite (HQ s Hs) in Hxs. discriminate.
        -- rewrite float_ltb_irrefl in Hxs. discriminate.
        -- rewrite float_ltb_irrefl in Hys. discriminate.
      * destruct Hs as [Hs | [-> | ->]];
          [apply HQ; exact Hs | apply float_ltb_irrefl | exact Hxy].
    + split.
      * destruct Hin as [Hp|Hin]; [|right; right; exact Hin].
        assert (Hxy : pick x y = x \/ pick x y = y)
          by (unfold pick; destruct (key x <? key y)%float; auto).
        rewrite <- Hp.
        destruct Hxy as [Hxy|Hxy]; rewrite Hxy; [left | right; left]; reflexivity.
      * intros s [Hs|[<-|[<-|Hs]]]; apply Hmax; auto.
        right. right. exact Hs.
Qed.

(** [max(l, key=key)]: an item of the list that no item of the list
    exceeds. *)
Lemma max_by_spec (l : list A) (r : A) :
  Wallet.max_by key l = Some r ->
  In r l /\ forall s, In s l -> (key r <? key s)%float = false.
Proof using Type.
  destruct l as [|x l]; [discriminate|].
  unfold Wallet.max_by. intros [= <-].
  destruct (@fold_max l x (fun _ => False)) as [Hin Hmax]; [contradiction|].
  split; [exact Hin|]. intros s Hs. apply Hmax. right. exact Hs.
Qed.

Lemma max_by_none (l : list A) : Wallet.max_by key l = None <-> l = [].
Proof using Type. destruct l; simpl; split; congruence. Qed.

End MaxBy.

Section MapM.
Import Py Effects.

Variables A B : Type.
Variable f : A -> M B.

(** [map_M] when the element expression does not touch the world. *)
Lemma map_M_pure (g : A -> result B) (l : list A) (w : World) :
  (forall x w0, f x w0 = (g x, w0)) ->
  exists r,
    Wallet.map_M f l w = (r, w)
    /\ (forall ys, r = Ok ys -> Forall2 (fun x y => g x = Ok y) l ys)
    /\ (Forall (fun x => exists y, g x = Ok y) l -> exists ys, r = Ok ys).
Proof using Type.
  intros Hf. induction l as [|x l IH]; simpl.
  - eexists. split; [reflexivity|]. split.
    + intros ys [= <-]. constructor.
    + intros _. eexists. reflexivity.
  - unfold bind at 1. rewrite Hf. destruct (g x) as [y|e] eqn:Hg.
    + destruct IH as (r & Hr & Hs & Hc). unfold bind at 1. rewrite Hr.
      destruct r as [ys|e].
      * eexists. split; [reflexivity|]. split.
        -- intros zs [= <-]. constructor; [exact Hg | apply Hs; reflexivity].
        -- intros _. eexists. reflexivity.
      * eexists. split; [reflexivity|]. split; [discriminate|].
        intros Hall. inversion Hall; subst.
        destruct (Hc H2) as (ys & Hys). discriminate.
    + eexists. split; [reflexivity|]. split; [discriminate|].
      intros Hall. inversion Hall as [|? ? [y Hy] ?]; subst. congruence.
Qed.


End MapM.

Section Listing.
Import Py Effects Trace.

Variable env : Env.
Variable wl : Wallet.t.
Variable min_conf : Z.

(** The fields of one UTXO, read from one entry of the answer. *)
Let entry (item : value) : result UTXO.t :=
  match getitem item (lit "txid") with
  | Raise e => Raise e
  | Ok t =>
      match getitem item (lit "vout") with
      | Raise e => Raise e
      | Ok v =>
          match getitem item (lit "amount") with
          | Raise e => Raise e
          | Ok a =>
              match py_float env a with
              | Raise e => Raise e
              | Ok f =>
                  match get_or item (lit "address") (VStr (Wallet.address wl)) with
                  | Raise e => Raise e
                  | Ok ad =>
                      Ok {| UTXO.txid := t; UTXO.vout := v; UTXO.amount := f;
                            UTXO.address := ad |}
                  end
              end
          end
      end
  end.

Let params : list value :=
  [VInt min_conf; VInt 9999999; VList [VStr (Wallet.address wl)]].

Lemma list_utxos_unfold (w : World) :
  Wallet.list_utxos env wl min_conf w
  = match RPCClient.call env (Wallet.rpc wl) (lit "listunspent") params w with
    | (Raise e, w1) => (Raise e, w1)
    | (Ok v, w1) =>
        match iterate v with
        | Raise e => (Raise e, w1)
        | Ok items =>
            Wallet.map_M (fun u => lift (entry u)) items w1
        end
    end.
Proof using Type.
  unfold Wallet.list_utxos. cbv zeta. unfold bind at 1. fold params.
  destruct (RPCClient.call env (Wallet.rpc wl) (lit "listunspent") params w)
    as [[v|e] w1]; [|reflexivity].
  unfold bind at 1. unfold lift at 1.
  destruct (iterate v) as [items|e]; [|reflexivity].
  assert (Hext : forall l w0,
            Wallet.map_M
              (fun u =>
                 bind (lift (getitem u (lit "txid"))) (fun t =>
                 bind (lift (getitem u (lit "vout"))) (fun v0 =>
                 bind (lift (getitem u (lit "amount"))) (fun a =>
                 bind (lift (py_float env a)) (fun f =>
                 bind (lift (get_or u (lit "address") (VStr (Wallet.address wl))))
                   (fun ad =>
                 ret {| UTXO.txid := t; UTXO.vout := v0; UTXO.amount := f;
                        UTXO.address := ad |})))))) l w0
            = Wallet.map_M (fun u => lift (entry u)) l w0).
  { induction l as [|u l IH]; intros w0; [reflexivity|].
    simpl. unfold bind at 1. unfold bind at 6.
    assert (Hu : bind (lift (getitem u (lit "txid"))) (fun t =>
                 bind (lift (getitem u (lit "vout"))) (fun v0 =>
                 bind (lift (getitem u (lit "amount"))) (fun a =>
                 bind (lift (py_float env a)) (fun f =>
                 bind (lift (get_or u (lit "address") (VStr (Wallet.address wl))))
                   (fun ad =>
                 ret {| UTXO.txid := t; UTXO.vout := v0; UTXO.amount := f;
                        UTXO.address := ad |}))))) w0
                 = lift (entry u) w0).
    { unfold bind, lift, ret, entry.
      destruct (getitem u (lit "txid")); [|reflexivity].
      destruct (getitem u (lit "vout")); [|reflexivity].
      destruct (getitem u (lit "amount")) as [am|]; [|reflexivity].
      destruct (py_float env am); [|reflexivity].
      destruct (get_or u (lit "address") (VStr (Wallet.address wl))); reflexivity. }
    rewrite Hu. unfold lift at 1 3. destruct (entry u); [|reflexivity].
    unfold bind. rewrite IH. reflexivity. }
  apply Hext.
Qed.

Lemma entry_ok (item : value) (u : UTXO.t) :
  entry item = Ok u
  <-> getitem item (lit "txid") = Ok (UTXO.txid u)
      /\ getitem item (lit "vout") = Ok (UTXO.vout u)
      /\ (exists a, getitem item (lit "amount") = Ok a
                    /\ py_float env a = Ok (UTXO.amount u))
      /\ get_or item (lit "address") (VStr (Wallet.address wl))
         = Ok (UTXO.address u).
Proof using Type.
  unfold entry. split.
  - destruct (getitem item (lit "txid")) as [t|]; [|discriminate].
    destruct (getitem item (lit "vout")) as [v|]; [|discriminate].
    destruct (getitem item (lit "amount")) as [a|]; [|discriminate].
    destruct (py_float env a) as [f|] eqn:Hf; [|discriminate].
    destruct (get_or item (lit "address") (VStr (Wallet.address wl))) as [ad|];
      [|discriminate].
    intros [= <-]. simpl. repeat split. exists a. split; [reflexivity | exact Hf].
  - intros (-> & -> & (a & -> & ->) & ->). destruct u; reflexivity.
Qed.

Lemma list_utxos_entries (w : World) (v : value) (w1 : World) :
  RPCClient.call env (Wallet.rpc wl) (lit "listunspent") params w = (Ok v, w1) ->
  exists r,
    Wallet.list_utxos env wl min_conf w = (r, w1)
    /\ (forall us, r = Ok us ->
          exists items,
            iterate v = Ok items
            /\ Forall2 (fun item u => entry item = Ok u) items us)
    /\ (forall items, iterate v = Ok items ->
          Forall (fun item => exists u, entry item = Ok u) items ->
          exists us, r = Ok us).
Proof using Type.
  intros Hcall. rewrite list_utxos_unfold, Hcall.
  destruct (iterate v) as [items|e].
  - destruct (@map_M_pure _ _ (fun u => lift (entry u)) entry items w1)
      as (r & Hr & Hs & Hc); [reflexivity|].
    exists r. split; [exact Hr|]. split.
    + intros us Hus. exists items. split; [reflexivity | apply Hs; exact Hus].
    + intros items' [= <-]. exact Hc.
  - eexists. split; [reflexivity|]. split; discriminate.
Qed.

End Listing.

(** X14.  What [list_utxos] makes of the answer to [listunspent].  After the
    one call nothing else happens to the world.  A result is one UTXO for
    each entry of the answer, in the order of the answer: txid, vout and
    amount are the entry's own (the amount through [float]), the address is
    the entry's, or the wallet's when the entry has none.  And a result is
    given whenever every entry can be read so; a call that raises hands its
    exception on. *)
Theorem list_utxos_shape (env : Effects.Env) (wl : Wallet.t) (min_conf : Z)
    (w : Effects.World) :
  match RPCClient.call env (Wallet.rpc wl) (Py.lit "listunspent")
          [Py.VInt min_conf; Py.VInt 9999999;
           Py.VList [Py.VStr (Wallet.address wl)]] w with
  | (Py.Raise e, w1) => Wallet.list_utxos env wl min_conf w = (Py.Raise e, w1)
  | (Py.Ok v, w1) =>
      let reads (item : Py.value) (u : UTXO.t) : Prop :=
        Effects.getitem item (Py.lit "txid") = Py.Ok (UTXO.txid u)
        /\ Effects.getitem item (Py.lit "vout") = Py.Ok (UTXO.vout u)
        /\ (exists a, Effects.getitem item (Py.lit "amount") = Py.Ok a
                      /\ Effects.py_float env a = Py.Ok (UTXO.amount u))
        /\ Effects.get_or item (Py.lit "address") (Py.VStr (Wallet.address wl))
           = Py.Ok (UTXO.address u) in
      exists r,
        Wallet.list_utxos env wl min_conf w = (r, w1)
        /\ (forall us, r = Py.Ok us ->
              exists items, Effects.iterate v = Py.Ok items /\ Forall2 reads items us)
        /\ (forall items, Effects.iterate v = Py.Ok items ->
              Forall (fun item => exists u, reads item u) items ->
              exists us, r = Py.Ok us)
  end.
Proof.
  destruct (RPCClient.call env (Wallet.rpc wl) (Py.lit "listunspent")
              [Py.VInt min_conf; Py.VInt 9999999;
               Py.VList [Py.VStr (Wallet.address wl)]] w) as [[v|e] w1] eqn:Hcall.
  - cbv zeta.
    destruct (list_utxos_entries env wl min_conf w Hcall) as (r & Hr & Hs & Hc).
    exists r. split; [exact Hr|]. split.
    + intros us Hus. destruct (Hs us Hus) as (items & Hi & Hf).
      exists items. split; [exact Hi|].
      eapply Forall2_impl; [|exact Hf]. intros item u H.
      apply (proj1 (entry_ok env wl item u)). exact H.
    + intros items Hi Hall. apply (Hc items Hi).
      eapply Forall_impl; [|exact Hall]. intros item [u Hu]. exists u.
      apply (proj2 (entry_ok env wl item u)). exact Hu.
  - rewrite list_utxos_unfold, Hcall. reflexivity.
Qed.

(** X15.  [select_largest_utxo] returns a UTXO of the listing that no UTXO
    of the listing exceeds in amount, and logs the selection; it does nothing
    else after the listing. *)
Theorem select_largest_utxo_maximal (env : Effects.Env) (wl : Wallet.t)
    (min_conf : Z) (w w' : Effects.World) (u : UTXO.t) :
  Wallet.select_largest_utxo env wl min_conf w = (Py.Ok u, w') ->
  exists us w1,
    Wallet.list_utxos env wl min_conf w = (Py.Ok us, w1)
    /\ In u us
    /\ (forall y, In y us -> (UTXO.amount u <? UTXO.amount y)%float = false)
    /\ w' = Trace.with_events w1
              [Effects.ELog Effects.INFO "Selected UTXO %s:%s for %s"].
Proof.
  unfold Wallet.select_largest_utxo, Effects.bind at 1. intros H.
  destruct (Wallet.list_utxos env wl min_conf w) as [[us|e] w1]; [|discriminate].
  destruct (Wallet.max_by UTXO.amount us) as [best|] eqn:Hmax; [|discriminate].
  injection H as <- <-.
  destruct (max_by_spec _ _ Hmax) as [Hin Hle].
  exists us, w1. split; [reflexivity|]. split; [exact Hin|].
  split; [exact Hle | reflexivity].
Qed.

(** Of two outputs, of 1.0 and of 2.0, the second is selected. *)
Lemma select_largest_utxo_maximal_witness :
  exists us w1,
    Wallet.list_utxos Cases.env_two_outputs Fixtures.wallet_a 1 Fixtures.w0
    = (Py.Ok us, w1)
    /\ In Cases.larger_output us
    /\ (forall y, In y us ->
          (UTXO.amount Cases.larger_output <? UTXO.amount y)%float = false)
    /\ snd (Wallet.select_largest_utxo Cases.env_two_outputs Fixtures.wallet_a 1
              Fixtures.w0)
       = Trace.with_events w1
           [Effects.ELog Effects.INFO "Selected UTXO %s:%s for %s"].
Proof.
  apply (@select_largest_utxo_maximal Cases.env_two_outputs Fixtures.wallet_a 1
           Fixtures.w0).
  vm_compute. reflexivity.
Defined.

(** X16.  A wallet whose listing fails or is empty.  An exception of the
    listing comes out of [select_largest_utxo] and of [balance] as it is.
    An empty listing makes [select_largest_utxo] raise [RuntimeError] with
    the wallet's label and log nothing, and gives the balance zero. *)
Theorem wallet_without_utxos (env : Effects.Env) (wl : Wallet.t) (min_conf : Z)
    (w : Effects.World) :
  match Wallet.list_utxos env wl min_conf w with
  | (Py.Raise e, w1) =>
      Wallet.select_largest_utxo env wl min_conf w = (Py.Raise e, w1)
      /\ Wallet.balance env wl min_conf w = (Py.Raise e, w1)
  | (Py.Ok us, w1) =>
      (us = [] ->
       Wallet.select_largest_utxo env wl min_conf w
       = (Py.Raise (Py.RuntimeError
                      (Py.lit "No spendable UTXOs for " ++ Wallet.label wl)), w1)
       /\ Wallet.balance env wl min_conf w = (Py.Ok 0%float, w1))
      /\ (us <> [] ->
          exists u w', Wallet.select_largest_utxo env wl min_conf w = (Py.Ok u, w'))
  end.
Proof.
  unfold Wallet.select_largest_utxo, Wallet.balance, Effects.bind.
  destruct (Wallet.list_utxos env wl min_conf w) as [[us|e] w1].
  - split.
    + intros ->. split; reflexivity.
    + intros Hne. destruct us as [|x r]; [contradiction|].
      simpl. eexists. eexists. reflexivity.
  - split; reflexivity.
Qed.



(** ** Counting events *)

Section Quiet.
Import Py Effects Trace Obs.

Variable P : Event -> bool.








End Quiet.


Section Attempts.
Import Py Effects Trace Obs.

Variable env : Env.
Variable eng : MintEngine.t.




Variable utxo : UTXO.t.
Variable dest_address : str.
Variable inscription_json : list (str * str).
Variable fee : float.




End Attempts.


Section ScanBound.
Import Py Effects Trace Obs.

Variable env : Env.
Variable c : RPCClient.t.

(** What one call leaves: between one and the budget of attempts for its
    method, none for another, no GET, and the index within the nodes. *)
Lemma call_effect (method : str) (params : list value) (w : World) :
  rpc_index w < List.length (RPCClient.nodes c) ->
  let '(r, w') := RPCClient.call env c method params w in
  (exists k,
     1 <= k <= budget c
     /\ requests_of method (trace w') = requests_of method (trace w) + k)
  /\ rpc_index w' < List.length (RPCClient.nodes c)
  /\ gets w' = gets w
  /\ forall m, str_eqb method m = false ->
       requests_of m (trace w') = requests_of m (trace w).
Proof using Type.
  intros Hw. unfold RPCClient.call.
  pose proof (call_loop_attempts env c method params
                (Z.to_nat (RPCClient.retry_attempts c) - 1) w Hw) as Ha.
  pose proof (fun m (H : str_eqb method m = false) =>
                @silent_call m env c method params H w) as Hs.
  unfold RPCClient.call in Hs.
  destruct (RPCClient.call_loop env c method params
              (Z.to_nat (RPCClient.retry_attempts c) - 1) w) as [r w'].
  destruct Ha as (k & Hk & Hreq & _ & Hidx & Hg & _ & _).
  split; [exists k; split; [unfold budget; lia | exact Hreq]|].
  split; [rewrite Hidx; apply Nat.mod_upper_bound; lia|].
  split; [exact Hg|]. intros m Hm. apply (Hs m Hm).
Qed.

End ScanBound.

Section ScanRequests.
Import Py Effects Trace Obs.

Variable env : Env.
Variable ms : MempoolScanner.t.
Variable tick : str.

Let c := MempoolScanner.rpc ms.
Let N := List.length (RPCClient.nodes c).

Lemma scan_requests (items : list value) :
  forall w,
    rpc_index w < N ->
    let '(_, w') := MempoolScanner.scan env ms tick items w in
    requests_of (lit "getrawtransaction") (trace w')
    <= requests_of (lit "getrawtransaction") (trace w)
       + List.length items * budget c
    /\ gets w' = gets w
    /\ forall m, str_eqb (lit "getrawtransaction") m = false ->
         requests_of m (trace w') = requests_of m (trace w).
Proof using Type.
  induction items as [|txid rest IH]; intros w Hw.
  - simpl. split; [lia|]. split; reflexivity.
  - rewrite scan_step.
    pose proof (call_effect env c (lit "getrawtransaction") [txid] w Hw) as Hc.
    fold c.
    destruct (RPCClient.call env c (lit "getrawtransaction") [txid] w)
      as [r w1].
    destruct Hc as ((k & Hk & Hreq) & Hidx & Hg & Hother).
    specialize (IH w1 Hidx).
    assert (Hrest :
      let '(_, w') := MempoolScanner.scan env ms tick rest w1 in
      requests_of (lit "getrawtransaction") (trace w')
      <= requests_of (lit "getrawtransaction") (trace w)
         + List.length (txid :: rest) * budget c
      /\ gets w' = gets w
      /\ forall m, str_eqb (lit "getrawtransaction") m = false ->
           requests_of m (trace w') = requests_of m (trace w)).
    { destruct (MempoolScanner.scan env ms tick rest w1) as [r' w'].
      destruct IH as (Hb & Hg' & Ho). simpl List.length.
      split; [rewrite Hreq in Hb; nia|]. split; [congruence|].
      intros m Hm. rewrite (Ho m Hm). apply Hother. exact Hm. }
    destruct r as [raw|e]; [|exact Hrest].
    destruct (MempoolScanner.tick_in_raw tick raw) as [[|]|e]; try exact Hrest.
    assert (Hlog : forall m l f, requests_of m [ELog l f] = 0) by reflexivity.
    simpl trace. simpl gets. simpl List.length.
    split; [rewrite requests_of_app, Hreq, Hlog; nia|].
    split; [exact Hg|]. intros m Hm.
    rewrite requests_of_app, Hlog, (Hother m Hm). lia.
Qed.

End ScanRequests.

(** X19.  What a mempool scan costs.  With a limit [max_scan] of zero or
    more, [contains_tick] makes between one and [max(1, retry_attempts)]
    request attempts for [getrawmempool], at most [max_scan] times that
    budget for [getrawtransaction], none for any other method, and no GET. *)
Theorem contains_tick_request_bound (env : Effects.Env) (ms : MempoolScanner.t)
    (tick : Py.str) (w : Effects.World) :
  Effects.rpc_index w < List.length (RPCClient.nodes (MempoolScanner.rpc ms)) ->
  (0 <= MempoolScanner.max_scan ms)%Z ->
  let budget :=
    Nat.max 1 (Z.to_nat (RPCClient.retry_attempts (MempoolScanner.rpc ms))) in
  let w' := snd (MempoolScanner.contains_tick env ms tick w) in
  (exists k,
     1 <= k <= budget
     /\ Trace.requests_of (Py.lit "getrawmempool") (Effects.trace w')
        = Trace.requests_of (Py.lit "getrawmempool") (Effects.trace w) + k)
  /\ Trace.requests_of (Py.lit "getrawtransaction") (Effects.trace w')
     <= Trace.requests_of (Py.lit "getrawtransaction") (Effects.trace w)
        + Z.to_nat (MempoolScanner.max_scan ms) * budget
  /\ (forall m,
        Py.str_eqb (Py.lit "getrawmempool") m = false ->
        Py.str_eqb (Py.lit "getrawtransaction") m = false ->
        Trace.requests_of m (Effects.trace w')
        = Trace.requests_of m (Effects.trace w))
  /\ Effects.gets w' = Effects.gets w.
Proof.
  intros Hw Hmax budget w'. subst w'. rewrite contains_tick_unfold.
  assert (Hbudget : Obs.budget (MempoolScanner.rpc ms) = budget)
    by (unfold Obs.budget, budget; lia).
  pose proof (call_effect env (MempoolScanner.rpc ms) (Py.lit "getrawmempool") [] w Hw)
    as Hc.
  destruct (RPCClient.call env (MempoolScanner.rpc ms) (Py.lit "getrawmempool") [] w)
    as [[v|e] w1];
    destruct Hc as ((k & Hk & Hreq) & Hidx & Hg & Hother); rewrite Hbudget in Hk.
  - assert (Hstop : forall (r : Py.result bool),
              let w' := snd (r, w1) in
              (exists k,
                 1 <= k <= budget
                 /\ Trace.requests_of (Py.lit "getrawmempool") (Effects.trace w')
                    = Trace.requests_of (Py.lit "getrawmempool") (Effects.trace w) + k)
              /\ Trace.requests_of (Py.lit "getrawtransaction") (Effects.trace w')
                 <= Trace.requests_of (Py.lit "getrawtransaction") (Effects.trace w)
                    + Z.to_nat (MempoolScanner.max_scan ms) * budget
              /\ (forall m,
                    Py.str_eqb (Py.lit "getrawmempool") m = false ->
                    Py.str_eqb (Py.lit "getrawtransaction") m = false ->
                    Trace.requests_of m (Effects.trace w')
                    = Trace.requests_of m (Effects.trace w))
              /\ Effects.gets w' = Effects.gets w).
    { intros r. cbn [snd]. split; [exists k; split; [exact Hk | exact Hreq]|].
      split; [rewrite (Hother (Py.lit "getrawtransaction") eq_refl); lia|].
      split; [intros m Hm _; apply Hother; exact Hm | exact Hg]. }
    destruct (Effects.slice_value (MempoolScanner.max_scan ms) v) as [head|e] eqn:Hs;
      [|apply Hstop].
    destruct (Effects.iterate head) as [items|e] eqn:Hi; [|apply Hstop].
    assert (Hlen : List.length items <= Z.to_nat (MempoolScanner.max_scan ms)).
    { unfold Effects.slice_value, Effects.slice_to in Hs.
      apply Z.leb_le in Hmax. rewrite Hmax in Hs.
      destruct v; try discriminate; injection Hs as <-; simpl in Hi;
        injection Hi as <-; rewrite ?length_map, length_firstn; lia. }
    pose proof (scan_requests env ms tick items w1 Hidx) as Hscan.
    destruct (MempoolScanner.scan env ms tick items w1) as [r w2]. cbn [snd].
    destruct Hscan as (Hb & Hg' & Ho). rewrite Hbudget in Hb.
    split.
    { exists k. split; [exact Hk|]. rewrite (Ho (Py.lit "getrawmempool") eq_refl).
      exact Hreq. }
    split.
    { rewrite (Hother (Py.lit "getrawtransaction") eq_refl) in Hb. nia. }
    split; [|congruence].
    intros m Hm1 Hm2. rewrite (Ho m Hm2). apply Hother. exact Hm1.
  - assert (Hlog : forall m l f, Trace.requests_of m [Effects.ELog l f] = 0)
      by reflexivity.
    cbn [snd]. simpl Effects.trace. simpl Effects.gets.
    split.
    { exists k. split; [exact Hk|]. rewrite requests_of_app, Hreq, Hlog. lia. }
    split.
    { rewrite requests_of_app, (Hother (Py.lit "getrawtransaction") eq_refl), Hlog.
      lia. }
    split; [|exact Hg].
    intros m Hm _. rewrite requests_of_app, (Hother m Hm), Hlog. lia.
Qed.

(** One pending transaction, one node, three attempts each. *)
Lemma contains_tick_request_bound_witness :
  Trace.requests_of (Py.lit "getrawtransaction")
    (Effects.trace
       (snd (MempoolScanner.contains_tick
               (Fixtures.env_mempool (Py.lit "227469636b223a227a65726f22"))
               Fixtures.scanner (Py.lit "ZERO") Fixtures.w0)))
  <= Trace.requests_of (Py.lit "getrawtransaction") (Effects.trace Fixtures.w0)
     + Z.to_nat (MempoolScanner.max_scan Fixtures.scanner)
       * Nat.max 1 (Z.to_nat (RPCClient.retry_attempts
                                (MempoolScanner.rpc Fixtures.scanner))).
Proof.
  refine (proj1 (proj2 (@contains_tick_request_bound
                         (Fixtures.env_mempool (Py.lit "227469636b223a227a65726f22"))
                         Fixtures.scanner (Py.lit "ZERO") Fixtures.w0 _ _))).
  - vm_compute. lia.
  - vm_compute. discriminate.
Defined.
